(** * Attendance page: punch-in / punch-out session logic

    A shallow embedding of [src/pages/AttendancePage.tsx].

    - JavaScript numbers are IEEE-754 binary64 values: Rocq's primitive
      [float], with the same operations and comparisons.
    - A [Date] is its time value, an integer number of milliseconds since
      the epoch ([Instant]); [getTime] turns it into a number.
    - React state, the [hr_attendance] table behind the Supabase client,
      the toasts shown and the requests sent are fields of one [World];
      the async handlers are computations in a small state-and-exception
      monad, in the order their awaits complete.
    - The change feed only calls [fetchAttendance] again, so it is a
      further run of [loadState]; [console] output is left out. *)

From Stdlib Require Import ZArith Floats List String DecimalString Bool Lia Permutation Sorted.
Import ListNotations.

#[local] Open Scope Z_scope.
#[local] Open Scope string_scope.
#[local] Open Scope list_scope.

(* ================================================================== *)
(** ** JavaScript values *)

Module JS.

(** Truthiness of a string: every string but the empty one. *)
Definition truthy_str (s : string) : bool := negb (String.eqb s "").

(** Truthiness of [T | null] where every [T] is truthy. *)
Definition truthy_opt {A : Type} (o : option A) : bool :=
  match o with Some _ => true | None => false end.

(** [s || d] on strings. *)
Definition or_str (s d : string) : string := if truthy_str s then s else d.

Definition is_nan (x : float) : bool := negb (PrimFloat.eqb x x).

(** Truthiness of a number: false for [0], [-0] and [NaN]. *)
Definition truthy_num (x : float) : bool :=
  negb (PrimFloat.eqb x 0%float || is_nan x).

(** [x || 0] where [x : number | null]. *)
Definition or_zero (o : option float) : float :=
  match o with
  | Some x => if truthy_num x then x else 0%float
  | None => 0%float
  end.

(** The number nearest to the integer [z] (the integer itself up to 2^53,
    an infinity past the largest number). *)
Definition Z2float (z : Z) : float :=
  SF2Prim (binary_normalize prec emax z 0 false).

(** [Math.max] on two non-negative integer counts. *)
Definition Math_max (a b : nat) : nat := Nat.max a b.

(** *** [Number.prototype.toFixed] and [parseFloat]

    The string [x.toFixed(f)] is kept in structured form: either one of
    the special strings, or the sign and the integer [n] whose decimal
    digits, with a point before the last [f] of them, make up the
    string. *)
Inductive fixed : Type :=
| FNaN                                     (* "NaN" *)
| FInf (neg : bool)                        (* "Infinity", "-Infinity" *)
| FBig (x : float)                         (* |x| >= 10^21: ToString(x) *)
| FDec (neg : bool) (n : Z) (f : nat).     (* [-]digits(n) with f decimals *)

(** "Let n be an integer for which n / 10^f - x is as close to zero as
    possible; if there are two such n, pick the larger": for
    x = m * 2^e this is floor (x * 10^f + 1/2). *)
Definition round_scaled (f : nat) (m : positive) (e : Z) : Z :=
  let a := Zpos m * 10 ^ Z.of_nat f in
  if (0 <=? e)%Z then a * 2 ^ e
  else (2 * a + 2 ^ (- e)) / 2 ^ (- e + 1).

Definition ten21 : float := 1e21%float.

Definition toFixed (f : nat) (x : float) : fixed :=
  match Prim2SF x with
  | S754_nan => FNaN
  | S754_infinity s => FInf s
  | S754_zero _ => FDec false 0 f
  | S754_finite s m e =>
      if PrimFloat.leb ten21 (PrimFloat.abs x) then FBig x
      else FDec s (round_scaled f m e) f
  end.

(** [parseFloat] of a string that [toFixed] produced: the number nearest
    to the decimal, with the sign of the string. The quotient of two
    exactly represented integers is correctly rounded, so this is the
    nearest number whenever [n < 2^53]. *)
Definition parseFloat (s : fixed) : float :=
  match s with
  | FNaN => PrimFloat.nan
  | FInf neg => if neg then PrimFloat.neg_infinity else PrimFloat.infinity
  | FBig x => x
  | FDec neg n f =>
      let v := PrimFloat.div (Z2float n) (Z2float (10 ^ Z.of_nat f)) in
      if neg then PrimFloat.opp v else v
  end.

End JS.

(* ================================================================== *)
(** ** Data model *)

(** A point in time: milliseconds since the epoch. The page writes it as
    an ISO string ([toISOString]) and reads it back with [new Date(..)]. *)
Definition Instant : Type := Z.

(** Time values range over +-8.64e15 ms; a [Date] outside is invalid and
    its [getTime()] is [NaN]. *)
Definition maxTimeValue : Z := 8640000000000000.

Definition getTime (t : Instant) : float :=
  if (Z.abs t <=? maxTimeValue)%Z then JS.Z2float t else PrimFloat.nan.

(** [interface AttendanceRecord] *)
Record AttendanceRecord : Type := mkRecord {
  id : string;
  employee_id : string;
  attendance_date : string;          (* 'yyyy-MM-dd' *)
  punch_in_time : Instant;
  punch_out_time : option Instant;
  total_hours : option float;
  status : option string;
  notes : option string
}.

(** The return type of [getStatus]. *)
Inductive DisplayStatus : Type := present | absent | partial.

(** The error object a store call resolves with. *)
Record StoreError : Type := mkError { code : string; message : string }.

(** A template literal, its substitutions left unrendered. *)
Inductive Piece : Type :=
| Lit (s : string)
| HHmm (t : Instant)                 (* format(date, 'HH:mm') *)
| Num (d : JS.fixed).                (* number.toFixed(f) *)

Record Toast : Type := mkToast {
  title : string;
  description : list Piece;
  variant : option string
}.

(** The object given to [.insert(..)]. *)
Record InsertPayload : Type := mkInsert {
  ins_employee_id : string;
  ins_attendance_date : string;
  ins_punch_in_time : Instant;
  ins_status : string
}.

(** The object given to [.update(..)]. *)
Record UpdatePatch : Type := mkPatch {
  upd_punch_out_time : Instant;
  upd_total_hours : float;
  upd_status : string
}.

(** What the page asks of the store, in the order asked. *)
Inductive Request : Type :=
| ReqSelectToday (emp date : string)
| ReqSelectHistory (emp since : string)
| ReqSelectMonth (emp first last : string)
| ReqInsert (p : InsertPayload)
| ReqUpdate (target : string) (p : UpdatePatch).

(** [{ data, error }] *)
Record Response (A : Type) : Type := mkResponse {
  data : option A;
  error : option StoreError
}.
Arguments mkResponse {A} _ _.
Arguments data {A} _.
Arguments error {A} _.

(** Component state, table contents and what the user and the network
    have seen so far. *)
Record World : Type := mkWorld {
  store : list AttendanceRecord;            (* table hr_attendance *)
  todayRecord : option AttendanceRecord;
  attendanceHistory : list AttendanceRecord;
  monthlyHours : float;
  loading : bool;
  punching : bool;
  toasts : list Toast;                      (* oldest first *)
  requests : list Request                   (* oldest first *)
}.

(** What one run of a handler reads from outside the component: the
    signed-in employee, the clock (read when the handler starts, and once
    more after its awaited store call), the dates derived from it by date-fns,
    and whether each store call fails for a reason of its own (network,
    permissions). *)
Record Env : Type := mkEnv {
  employee : option string;                 (* employee?.id *)
  today : string;                           (* format(new Date(), 'yyyy-MM-dd') *)
  clock : Instant;                          (* new Date() *)
  clockAfter : Instant;                     (* new Date(), read again once the
                                               awaited insert has resolved *)
  thirtyDaysAgo : string;
  monthStart : string;
  monthEnd : string;
  todayFault : option StoreError;
  historyFault : option StoreError;
  monthFault : option StoreError;
  insertFault : option StoreError;
  updateFault : option StoreError
}.

(* ================================================================== *)
(** ** The record store

    The page reaches the table [hr_attendance] through the Supabase
    client only; these are the five calls it makes. A call that fails for
    a reason of its own resolves with that error and touches nothing. *)

Module Store.

Definition for_day (emp date : string) (r : AttendanceRecord) : bool :=
  String.eqb (employee_id r) emp && String.eqb (attendance_date r) date.

(** [.maybeSingle()] resolves with an error when several rows match. *)
Definition multiple_rows : StoreError :=
  mkError "PGRST116" "JSON object requested, multiple (or no) rows returned".

(** [.select('*').eq('employee_id', emp).eq('attendance_date', date).maybeSingle()] *)
Definition select_today (fault : option StoreError) (emp date : string)
    (rows : list AttendanceRecord) : Response AttendanceRecord :=
  match fault with
  | Some e => mkResponse None (Some e)
  | None =>
      match filter (for_day emp date) rows with
      | [] => mkResponse None None
      | [r] => mkResponse (Some r) None
      | _ :: _ :: _ => mkResponse None (Some multiple_rows)
      end
  end.

(** [.order('attendance_date', { ascending: false })]; dates are
    'yyyy-MM-dd', ordered as strings. *)
Fixpoint insert_desc (r : AttendanceRecord) (l : list AttendanceRecord)
    : list AttendanceRecord :=
  match l with
  | [] => [r]
  | x :: l' =>
      if String.leb (attendance_date x) (attendance_date r)
      then r :: l
      else x :: insert_desc r l'
  end.

Definition order_desc (l : list AttendanceRecord) : list AttendanceRecord :=
  fold_right insert_desc [] l.

(** [.select('*').eq('employee_id', emp).gte('attendance_date', since).order(..)] *)
Definition select_history (fault : option StoreError) (emp since : string)
    (rows : list AttendanceRecord) : Response (list AttendanceRecord) :=
  match fault with
  | Some e => mkResponse None (Some e)
  | None =>
      mkResponse
        (Some (order_desc
           (filter (fun r => String.eqb (employee_id r) emp
                             && String.leb since (attendance_date r)) rows)))
        None
  end.

Definition in_month (emp first last : string) (r : AttendanceRecord) : bool :=
  String.eqb (employee_id r) emp
  && String.leb first (attendance_date r)
  && String.leb (attendance_date r) last.

(** [.select('total_hours').eq(..).gte('attendance_date', first).lte('attendance_date', last)]:
    one [{ total_hours }] per matching row, in the order the table yields
    them (the query asks for none). *)
Definition select_month (fault : option StoreError) (emp first last : string)
    (rows : list AttendanceRecord) : Response (list (option float)) :=
  match fault with
  | Some e => mkResponse None (Some e)
  | None =>
      mkResponse (Some (map total_hours (filter (in_month emp first last) rows))) None
  end.

(** Modelled from the spec: the table's definition is not among the
    sources. "A duplicate insert for the same employee+date must fail",
    with "a distinguishable 'duplicate' failure code"; the identifier is
    "store-assigned"; columns the insert does not name stay absent. *)
Definition unique_violation : StoreError :=
  mkError "23505" "duplicate key value violates unique constraint".

Definition fresh_id (rows : list AttendanceRecord) : string :=
  NilEmpty.string_of_uint (Nat.to_uint (List.length rows)).

Definition new_row (rows : list AttendanceRecord) (p : InsertPayload)
    : AttendanceRecord :=
  {| id := fresh_id rows;
     employee_id := ins_employee_id p;
     attendance_date := ins_attendance_date p;
     punch_in_time := ins_punch_in_time p;
     punch_out_time := None;
     total_hours := None;
     status := Some (ins_status p);
     notes := None |}.

(** [.insert(p)] *)
Definition insert (fault : option StoreError) (p : InsertPayload)
    (rows : list AttendanceRecord) : option StoreError * list AttendanceRecord :=
  match fault with
  | Some e => (Some e, rows)
  | None =>
      if existsb (for_day (ins_employee_id p) (ins_attendance_date p)) rows
      then (Some unique_violation, rows)
      else (None, rows ++ [new_row rows p])
  end.

(** A number in a JSON body: [NaN] and the infinities are written [null],
    [-0] is written [0]. *)
Definition json_number (x : float) : option float :=
  match Prim2SF x with
  | S754_nan | S754_infinity _ => None
  | S754_zero _ => Some 0%float
  | S754_finite _ _ _ => Some x
  end.

Definition apply_patch (p : UpdatePatch) (r : AttendanceRecord) : AttendanceRecord :=
  {| id := id r;
     employee_id := employee_id r;
     attendance_date := attendance_date r;
     punch_in_time := punch_in_time r;
     punch_out_time := Some (upd_punch_out_time p);
     total_hours := json_number (upd_total_hours p);
     status := Some (upd_status p);
     notes := notes r |}.

(** [.update(p).eq('id', target)] *)
Definition update (fault : option StoreError) (target : string) (p : UpdatePatch)
    (rows : list AttendanceRecord) : option StoreError * list AttendanceRecord :=
  match fault with
  | Some e => (Some e, rows)
  | None =>
      (None, map (fun r => if String.eqb (id r) target then apply_patch p r else r) rows)
  end.

End Store.

(* ================================================================== *)
(** ** Handlers as computations

    A computation runs from a [World] to an outcome and a new [World];
    [Thrown] is a JavaScript exception carrying the store's error. *)

Inductive Outcome (A : Type) : Type :=
| Done (a : A)
| Thrown (e : StoreError).
Arguments Done {A} a.
Arguments Thrown {A} e.

Definition M (A : Type) : Type := World -> Outcome A * World.

Definition ret {A : Type} (a : A) : M A := fun w => (Done a, w).

Definition bind {A B : Type} (c : M A) (k : A -> M B) : M B :=
  fun w =>
    match c w with
    | (Done a, w') => k a w'
    | (Thrown e, w') => (Thrown e, w')
    end.

Definition throw {A : Type} (e : StoreError) : M A := fun w => (Thrown e, w).

(** [try { body } catch (error) { handler error } finally { fin }] *)
Definition try_catch_finally {A : Type}
    (body : M A) (handler : StoreError -> M A) (fin : M unit) : M A :=
  fun w =>
    let (o1, w1) := body w in
    let (o2, w2) :=
      match o1 with
      | Done a => (Done a, w1)
      | Thrown e => handler e w1
      end in
    let (o3, w3) := fin w2 in
    match o3 with
    | Done _ => (o2, w3)
    | Thrown e => (Thrown e, w3)
    end.

Declare Scope js_scope.
Delimit Scope js_scope with js.
Notation "x <- c ;; k" := (bind c (fun x => k))
  (at level 61, c at next level, right associativity) : js_scope.
Notation "c ;; k" := (bind c (fun _ => k))
  (at level 61, right associativity) : js_scope.
#[local] Open Scope js_scope.

(** The world after a computation, and how it ended. *)
Definition exec {A : Type} (c : M A) (w : World) : World := snd (c w).
Definition outcome {A : Type} (c : M A) (w : World) : Outcome A := fst (c w).

Definition setTodayRecord (v : option AttendanceRecord) : M unit := fun w =>
  (Done tt, mkWorld (store w) v (attendanceHistory w) (monthlyHours w)
                    (loading w) (punching w) (toasts w) (requests w)).

Definition setAttendanceHistory (v : list AttendanceRecord) : M unit := fun w =>
  (Done tt, mkWorld (store w) (todayRecord w) v (monthlyHours w)
                    (loading w) (punching w) (toasts w) (requests w)).

Definition setMonthlyHours (v : float) : M unit := fun w =>
  (Done tt, mkWorld (store w) (todayRecord w) (attendanceHistory w) v
                    (loading w) (punching w) (toasts w) (requests w)).

Definition setLoading (v : bool) : M unit := fun w =>
  (Done tt, mkWorld (store w) (todayRecord w) (attendanceHistory w) (monthlyHours w)
                    v (punching w) (toasts w) (requests w)).

Definition setPunching (v : bool) : M unit := fun w =>
  (Done tt, mkWorld (store w) (todayRecord w) (attendanceHistory w) (monthlyHours w)
                    (loading w) v (toasts w) (requests w)).

Definition toast (t : Toast) : M unit := fun w =>
  (Done tt, mkWorld (store w) (todayRecord w) (attendanceHistory w) (monthlyHours w)
                    (loading w) (punching w) (toasts w ++ [t]) (requests w)).

(** A store call: the request goes out, the table answers and, for a
    write, changes. *)
Definition call {A : Type} (q : Request)
    (f : list AttendanceRecord -> A * list AttendanceRecord) : M A := fun w =>
  let (a, rows) := f (store w) in
  (Done a, mkWorld rows (todayRecord w) (attendanceHistory w) (monthlyHours w)
                   (loading w) (punching w) (toasts w) (requests w ++ [q])).

Definition readTodayRecord : M (option AttendanceRecord) :=
  fun w => (Done (todayRecord w), w).

(** [employee?.id] when truthy. *)
Definition signedIn (env : Env) : option string :=
  match employee env with
  | Some e => if JS.truthy_str e then Some e else None
  | None => None
  end.

Definition destructive : option string := Some "destructive".

(** [data || []] *)
Definition or_empty {A : Type} (d : option (list A)) : list A :=
  match d with Some l => l | None => [] end.

(** [(monthData || []).reduce((sum, record) => sum + (record.total_hours || 0), 0)] *)
Definition sumTotalHours (monthData : option (list (option float))) : float :=
  fold_left (fun sum record => PrimFloat.add sum (JS.or_zero record))
            (or_empty monthData) 0%float.

Definition fetchAttendance (env : Env) (emp : string) : M unit :=
  setLoading true ;;
  try_catch_finally
    (r1 <- call (ReqSelectToday emp (today env))
             (fun rows => (Store.select_today (todayFault env) emp (today env) rows, rows)) ;;
     match error r1 with
     | Some todayError => throw todayError
     | None =>
       setTodayRecord (data r1) ;;
       r2 <- call (ReqSelectHistory emp (thirtyDaysAgo env))
                (fun rows => (Store.select_history (historyFault env) emp
                                (thirtyDaysAgo env) rows, rows)) ;;
       match error r2 with
       | Some historyError => throw historyError
       | None =>
         setAttendanceHistory (or_empty (data r2)) ;;
         r3 <- call (ReqSelectMonth emp (monthStart env) (monthEnd env))
                  (fun rows => (Store.select_month (monthFault env) emp
                                  (monthStart env) (monthEnd env) rows, rows)) ;;
         match error r3 with
         | Some monthError => throw monthError
         | None => setMonthlyHours (sumTotalHours (data r3))
         end
       end
     end)
    (fun _ => toast {| title := "Error";
                       description := [Lit "Failed to load attendance data"];
                       variant := destructive |})
    (setLoading false).

(** The effect's guard: [if (!employee?.id) return; ... fetchAttendance()];
    the change feed calls [fetchAttendance] again. *)
Definition loadState (env : Env) : M unit :=
  match signedIn env with
  | Some emp => fetchAttendance env emp
  | None => ret tt
  end.

Definition handlePunchIn (env : Env) : M unit :=
  match signedIn env with
  | None => ret tt
  | Some emp =>
    setPunching true ;;
    try_catch_finally
      (let now := clock env in
       let payload := {| ins_employee_id := emp;
                         ins_attendance_date := today env;
                         ins_punch_in_time := now;
                         ins_status := "present" |} in
       err <- call (ReqInsert payload) (Store.insert (insertFault env) payload) ;;
       match err with
       | Some error =>
           if String.eqb (code error) "23505"
           then toast {| title := "Already Punched In";
                         description := [Lit "You have already punched in today"];
                         variant := destructive |}
           else throw error
       | None =>
           toast {| title := "Punched In";
                    description := [Lit "Successfully punched in at ";
                                    HHmm (clockAfter env)];
                    variant := None |}
       end)
      (fun error => toast {| title := "Error";
                             description := [Lit (JS.or_str (message error) "Failed to punch in")];
                             variant := destructive |})
      (setPunching false)
  end.

(** [(now.getTime() - punchIn.getTime()) / (1000 * 60 * 60)] *)
Definition hoursWorked (now : Instant) (r : AttendanceRecord) : float :=
  PrimFloat.div (PrimFloat.sub (getTime now) (getTime (punch_in_time r)))
                (PrimFloat.mul (PrimFloat.mul 1000 60) 60).

(** [hoursWorked >= 8 ? 'present' : hoursWorked >= 4 ? 'partial' : 'absent'] *)
Definition statusFor (hours : float) : string :=
  if PrimFloat.leb 8 hours then "present"
  else if PrimFloat.leb 4 hours then "partial"
  else "absent".

Definition punchOutPatch (now : Instant) (r : AttendanceRecord) : UpdatePatch :=
  {| upd_punch_out_time := now;
     upd_total_hours := JS.parseFloat (JS.toFixed 2 (hoursWorked now r));
     upd_status := statusFor (hoursWorked now r) |}.

Definition handlePunchOut (env : Env) : M unit :=
  rec <- readTodayRecord ;;
  match signedIn env, rec with
  | Some _, Some todayRecord =>
    setPunching true ;;
    try_catch_finally
      (let now := clock env in
       let patch := punchOutPatch now todayRecord in
       err <- call (ReqUpdate (id todayRecord) patch)
                (Store.update (updateFault env) (id todayRecord) patch) ;;
       match err with
       | Some error => throw error
       | None =>
           toast {| title := "Punched Out";
                    description := [Lit "Successfully punched out. Total hours: ";
                                    Num (JS.toFixed 2 (hoursWorked now todayRecord));
                                    Lit "h"];
                    variant := None |}
       end)
      (fun error => toast {| title := "Error";
                             description := [Lit (JS.or_str (message error) "Failed to punch out")];
                             variant := destructive |})
      (setPunching false)
  | _, _ => ret tt
  end.

(* ================================================================== *)
(** ** What a render derives from the state *)

(** An ISO timestamp is a non-empty string, hence truthy. *)
Definition truthy_instant (t : Instant) : bool := true.

Definition status_is (r : AttendanceRecord) (s : string) : bool :=
  match status r with
  | Some x => String.eqb x s
  | None => false
  end.

Definition getStatus (w : World) : DisplayStatus :=
  match todayRecord w with
  | None => absent
  | Some r =>
      if status_is r "present" then present
      else if status_is r "partial" then partial
      else if truthy_instant (punch_in_time r) && negb (JS.truthy_opt (punch_out_time r))
      then present
      else absent
  end.

(** [todayRecord && !todayRecord.punch_out_time], as a condition. *)
Definition isPunchedIn (w : World) : bool :=
  match todayRecord w with
  | Some r => negb (JS.truthy_opt (punch_out_time r))
  | None => false
  end.

Definition presentDays (w : World) : nat :=
  List.length (filter (fun r => status_is r "present") (attendanceHistory w)).

Definition partialDays (w : World) : nat :=
  List.length (filter (fun r => status_is r "partial") (attendanceHistory w)).

(** [Math.max(presentDays + partialDays, 1)] *)
Definition avgDenominator (w : World) : nat :=
  JS.Math_max (presentDays w + partialDays w) 1.

(** The value of the 'Avg Hours/Day' card. *)
Definition avgHoursPerDay (w : World) : list Piece :=
  if (0 <? List.length (attendanceHistory w))%nat
  then [Num (JS.toFixed 1 (PrimFloat.div (monthlyHours w)
                             (JS.Z2float (Z.of_nat (avgDenominator w)))));
        Lit "h"]
  else [Lit "--"].

(** The buttons: [disabled={!!todayRecord || punching}] and
    [disabled={!isPunchedIn || punching}]; a disabled button does not
    call its [onClick]. While [loading] the page returns only the spinner
    ([if (loading) return ...]): there is no button, and nothing to click. *)
Definition punchInDisabled (w : World) : bool :=
  JS.truthy_opt (todayRecord w) || punching w.

Definition punchOutDisabled (w : World) : bool :=
  negb (isPunchedIn w) || punching w.

Definition clickPunchIn (env : Env) : M unit := fun w =>
  if loading w then ret tt w
  else if punchInDisabled w then ret tt w
  else handlePunchIn env w.

Definition clickPunchOut (env : Env) : M unit := fun w =>
  if loading w then ret tt w
  else if punchOutDisabled w then ret tt w
  else handlePunchOut env w.

(* ================================================================== *)
(** ** Vocabulary of the statements *)

(** The toasts the handlers show. *)
Definition punchedInToast (now : Instant) : Toast :=
  {| title := "Punched In";
     description := [Lit "Successfully punched in at "; HHmm now];
     variant := None |}.

Definition alreadyPunchedInToast : Toast :=
  {| title := "Already Punched In";
     description := [Lit "You have already punched in today"];
     variant := destructive |}.

Definition punchedOutToast (now : Instant) (r : AttendanceRecord) : Toast :=
  {| title := "Punched Out";
     description := [Lit "Successfully punched out. Total hours: ";
                     Num (JS.toFixed 2 (hoursWorked now r)); Lit "h"];
     variant := None |}.

(** The generic failure toast: the error's own message, or [fallback]. *)
Definition errorToast (fallback : string) (e : StoreError) : Toast :=
  {| title := "Error";
     description := [Lit (JS.or_str (message e) fallback)];
     variant := destructive |}.

Definition loadErrorToast : Toast :=
  {| title := "Error";
     description := [Lit "Failed to load attendance data"];
     variant := destructive |}.

(** The insert [handlePunchIn] sends. *)
Definition punchInPayload (env : Env) (emp : string) : InsertPayload :=
  {| ins_employee_id := emp;
     ins_attendance_date := today env;
     ins_punch_in_time := clock env;
     ins_status := "present" |}.

(** The table after [.update(p).eq('id', target)] went through. *)
Definition updated (target : string) (p : UpdatePatch)
    (rows : list AttendanceRecord) : list AttendanceRecord :=
  map (fun r => if String.eqb (id r) target then Store.apply_patch p r else r) rows.

(** Rounding to [f] decimals, in the words of [toFixed]: for the number
    [x = m * 2^e], the integer [n] with [n / 10^f - x] as close to zero as
    possible, the larger one if there are two. Distances are scaled by
    the power of two that makes them integers. *)
Definition scaled_distance (f : nat) (m : positive) (e : Z) (n : Z) : Z :=
  Z.abs (n * 2 ^ Z.max 0 (- e) - Zpos m * 10 ^ Z.of_nat f * 2 ^ Z.max 0 e).

Definition nearest_ties_up (f : nat) (m : positive) (e : Z) (n : Z) : Prop :=
  forall n' : Z,
    scaled_distance f m e n <= scaled_distance f m e n' /\
    (scaled_distance f m e n' = scaled_distance f m e n -> n' <= n).

(** Every closed record ends after it began. *)
Definition out_after_in (rows : list AttendanceRecord) : Prop :=
  forall r t, In r rows -> punch_out_time r = Some t -> punch_in_time r < t.

(** A total written by [toFixed(2)]: [n] hundredths of an hour. *)
Definition hundredths (n : Z) : float := JS.parseFloat (JS.FDec false n 2).

(* ================================================================== *)
(** ** A working day

    Concrete inputs: employee "emp1" on 2024-01-15, punching in at
    09:00:00 UTC. *)

Module Day.

Definition nine : Instant := 1705309200000.     (* 2024-01-15T09:00:00.000Z *)

Definition hm (h m : Z) : Z := h * 3600000 + m * 60000.

Definition env_at (now : Instant) : Env :=
  {| employee := Some "emp1";
     today := "2024-01-15";
     clock := now;
     clockAfter := now + 400;
     thirtyDaysAgo := "2023-12-16";
     monthStart := "2024-01-01";
     monthEnd := "2024-01-31";
     todayFault := None;
     historyFault := None;
     monthFault := None;
     insertFault := None;
     updateFault := None |}.

Definition open_record : AttendanceRecord :=
  {| id := "0";
     employee_id := "emp1";
     attendance_date := "2024-01-15";
     punch_in_time := nine;
     punch_out_time := None;
     total_hours := None;
     status := Some "present";
     notes := None |}.

(** The same record after a punch-out at 18:00. *)
Definition closed_record : AttendanceRecord :=
  {| id := "0";
     employee_id := "emp1";
     attendance_date := "2024-01-15";
     punch_in_time := nine;
     punch_out_time := Some (nine + hm 9 0);
     total_hours := Some (hundredths 900);
     status := Some "present";
     notes := None |}.

(** Before the first punch of the day. *)
Definition fresh : World :=
  {| store := [];
     todayRecord := None;
     attendanceHistory := [];
     monthlyHours := 0%float;
     loading := false;
     punching := false;
     toasts := [];
     requests := [] |}.

(** Clocked in, page loaded. *)
Definition clocked_in : World :=
  {| store := [open_record];
     todayRecord := Some open_record;
     attendanceHistory := [open_record];
     monthlyHours := 0%float;
     loading := false;
     punching := false;
     toasts := [];
     requests := [] |}.

(** Clocked out, page reloaded. *)
Definition clocked_out : World :=
  {| store := [closed_record];
     todayRecord := Some closed_record;
     attendanceHistory := [closed_record];
     monthlyHours := hundredths 900;
     loading := false;
     punching := false;
     toasts := [];
     requests := [] |}.

(** Punched in while the page still shows the state loaded before. *)
Definition just_punched_in : World :=
  {| store := [open_record];
     todayRecord := None;
     attendanceHistory := [];
     monthlyHours := 0%float;
     loading := false;
     punching := false;
     toasts := [];
     requests := [] |}.

(** The history query fails, the other two go through. *)
Definition history_down (now : Instant) : Env :=
  {| employee := Some "emp1";
     today := "2024-01-15";
     clock := now;
     clockAfter := now + 400;
     thirtyDaysAgo := "2023-12-16";
     monthStart := "2024-01-01";
     monthEnd := "2024-01-31";
     todayFault := None;
     historyFault := Some (mkError "" "Failed to fetch");
     monthFault := None;
     insertFault := None;
     updateFault := None |}.

(** Three closed days of January: 8h06m, 8h12m and 8h03m worked, stored
    as 8.1, 8.2 and 8.05 hours. *)
Definition day : Z := 86400000.

Definition closed_day (i date : string) (start worked : Z) (n : Z) : AttendanceRecord :=
  {| id := i;
     employee_id := "emp1";
     attendance_date := date;
     punch_in_time := start;
     punch_out_time := Some (start + worked);
     total_hours := Some (hundredths n);
     status := Some "present";
     notes := None |}.

Definition jan10 : AttendanceRecord :=
  closed_day "1" "2024-01-10" (nine - 5 * day) (hm 8 6) 810.
Definition jan11 : AttendanceRecord :=
  closed_day "2" "2024-01-11" (nine - 4 * day) (hm 8 12) 820.
Definition jan12 : AttendanceRecord :=
  closed_day "3" "2024-01-12" (nine - 3 * day) (hm 8 3) 805.

Definition table (rows : list AttendanceRecord) : World :=
  {| store := rows;
     todayRecord := None;
     attendanceHistory := [];
     monthlyHours := 0%float;
     loading := true;
     punching := false;
     toasts := [];
     requests := [] |}.

End Day.

(* ================================================================== *)
(** ** The rest of the attendance page's render *)

(** [formatTime]: ['--:--'] for a missing time, else [format(.., 'HH:mm')]. *)
Definition formatTime (isoString : option Instant) : list Piece :=
  match isoString with
  | None => [Lit "--:--"]
  | Some t => [HHmm t]
  end.

(** [todayRecord && todayRecord.punch_out_time], as a condition. *)
Definition hasPunchedOut (w : World) : bool :=
  match todayRecord w with
  | Some r => JS.truthy_opt (punch_out_time r)
  | None => false
  end.

(** A cell that shows hours: the template [`${total_hours}h`] with the
    number left unrendered, or a placeholder. *)
Inductive HoursCell : Type :=
| Placeholder (s : string)
| HoursText (x : float).

(** [total_hours ? `${total_hours}h` : placeholder] *)
Definition hoursCell (placeholder : string) (total : option float) : HoursCell :=
  match total with
  | Some x => if JS.truthy_num x then HoursText x else Placeholder placeholder
  | None => Placeholder placeholder
  end.

(** The 'Total Hours' figure of today's card:
    [todayRecord?.total_hours ? `${todayRecord.total_hours}h` : '--:--']. *)
Definition todayTotalCell (w : World) : HoursCell :=
  match todayRecord w with
  | Some r => hoursCell "--:--" (total_hours r)
  | None => Placeholder "--:--"
  end.

(** A row of the history table: the two times, the total
    ([record.total_hours ? .. : '--']) and the badge
    ([record.status || 'absent']). *)
Record HistoryRow : Type := mkHistoryRow {
  row_key : string;
  row_punch_in : list Piece;
  row_punch_out : list Piece;
  row_total : HoursCell;
  row_badge : string
}.

Definition historyRow (record : AttendanceRecord) : HistoryRow :=
  {| row_key := id record;
     row_punch_in := formatTime (Some (punch_in_time record));
     row_punch_out := formatTime (punch_out_time record);
     row_total := hoursCell "--" (total_hours record);
     row_badge := match status record with
                  | Some s => JS.or_str s "absent"
                  | None => "absent"
                  end |}.

(** The body of the history table: [None] stands for the single
    'No attendance records found' row. *)
Definition historyTable (w : World) : option (list HistoryRow) :=
  match attendanceHistory w with
  | [] => None
  | rows => Some (map historyRow rows)
  end.

(** The three statuses in the order of the thresholds. *)
Definition rank (s : string) : nat :=
  if String.eqb s "present" then 2
  else if String.eqb s "partial" then 1
  else 0.

(** What [getStatus] shows for a stored status string on a closed record. *)
Definition displayOf (s : string) : DisplayStatus :=
  if String.eqb s "present" then present
  else if String.eqb s "partial" then partial
  else absent.

(** Newest first. *)
Definition newer_first (a b : AttendanceRecord) : Prop :=
  String.leb (attendance_date b) (attendance_date a) = true.

(** The rows the history query asks for. *)
Definition in_window (emp since : string) (r : AttendanceRecord) : bool :=
  String.eqb (employee_id r) emp && String.leb since (attendance_date r).

(** One handler after another. *)
Definition andThen (c1 c2 : M unit) : M unit := fun w => c2 (exec c1 w).

(* ================================================================== *)
(** ** The landing page: sign-in form and section observer

    The second component of the sources, [LandingPage]. Its state, the
    sonner toasts, the calls to [signIn] and to [navigate] are fields of
    one [Page]. [signIn] comes from the auth context: what it answers is
    an input. *)

Module Landing.

Record AuthError : Type := mkAuthError { auth_message : string }.

(** What awaiting [signIn(email, password)] gives: [{ error }], or a
    rejection. *)
Inductive SignIn : Type :=
| Resolves (error : option AuthError)
| Rejects (e : AuthError).

Inductive Sonner : Type :=
| ToastError (m : string)
| ToastSuccess (m : string).

Record Page : Type := mkPage {
  email : string;
  password : string;
  submitting : bool;
  showPassword : bool;
  visibleSections : list string;      (* a Set, in insertion order *)
  shown : list Sonner;                (* oldest first *)
  signInCalls : list (string * string);
  navigated : list string
}.

(** How a handler run ends. *)
Inductive Ended : Type :=
| Normally
| Throwing (e : AuthError).

Definition handleLogin (signIn : string -> string -> SignIn) (p : Page) : Ended * Page :=
  if negb (JS.truthy_str (email p)) || negb (JS.truthy_str (password p))
  then (Normally,
        mkPage (email p) (password p) (submitting p) (showPassword p) (visibleSections p)
               (shown p ++ [ToastError "Please enter email and password"])
               (signInCalls p) (navigated p))
  else
    let calls := signInCalls p ++ [(email p, password p)] in
    match signIn (email p) (password p) with
    | Rejects e =>
        (Throwing e,
         mkPage (email p) (password p) true (showPassword p) (visibleSections p)
                (shown p) calls (navigated p))
    | Resolves (Some error) =>
        (Normally,
         mkPage (email p) (password p) false (showPassword p) (visibleSections p)
                (shown p ++ [ToastError (JS.or_str (auth_message error) "Login failed")])
                calls (navigated p))
    | Resolves None =>
        (Normally,
         mkPage (email p) (password p) false (showPassword p) (visibleSections p)
                (shown p ++ [ToastSuccess "Welcome back!"])
                calls (navigated p ++ ["/app"]))
    end.

(** The Sign In button: [disabled={submitting}]. *)
Definition submit (signIn : string -> string -> SignIn) (p : Page) : Ended * Page :=
  if submitting p then (Normally, p) else handleLogin signIn p.

(** [onClick={() => setShowPassword(!showPassword)}] *)
Definition togglePassword (p : Page) : Page :=
  mkPage (email p) (password p) (submitting p) (negb (showPassword p)) (visibleSections p)
         (shown p) (signInCalls p) (navigated p).

(** [type={showPassword ? 'text' : 'password'}] *)
Definition passwordInputType (p : Page) : string :=
  if showPassword p then "text" else "password".

(** An [IntersectionObserverEntry], as far as the callback reads it. *)
Record Entry : Type := mkEntry { isIntersecting : bool; target_id : string }.

(** [new Set(prev).add(x)] *)
Definition set_add (x : string) (s : list string) : list string :=
  if existsb (String.eqb x) s then s else s ++ [x].

(** The observer's callback: for each entry that intersects,
    [setVisibleSections(prev => new Set(prev).add(entry.target.id))]. *)
Definition onIntersect (entries : list Entry) (p : Page) : Page :=
  mkPage (email p) (password p) (submitting p) (showPassword p)
         (fold_left (fun prev entry =>
                       if isIntersecting entry then set_add (target_id entry) prev else prev)
                    entries (visibleSections p))
         (shown p) (signInCalls p) (navigated p).

(** A visitor about to sign in. *)
Definition visitor : Page :=
  {| email := "ada@example.com";
     password := "secret";
     submitting := false;
     showPassword := false;
     visibleSections := [];
     shown := [];
     signInCalls := [];
     navigated := [] |}.

Definition accepts (e p : string) : SignIn := Resolves None.
Definition refuses (e p : string) : SignIn :=
  Resolves (Some (mkAuthError "Invalid login credentials")).
Definition breaks (e p : string) : SignIn := Rejects (mkAuthError "Failed to fetch").

End Landing.

(* ================================================================== *)
(** ** Further vocabulary and inputs *)

(** A request that only reads. *)
Definition is_read (q : Request) : bool :=
  match q with
  | ReqSelectToday _ _ | ReqSelectHistory _ _ | ReqSelectMonth _ _ _ => true
  | ReqInsert _ | ReqUpdate _ _ => false
  end.

(** No store call fails for a reason of its own. *)
Definition healthy (env : Env) : Prop :=
  todayFault env = None /\ historyFault env = None /\ monthFault env = None /\
  insertFault env = None /\ updateFault env = None.

Module Cases.

(** Nobody is signed in. *)
Definition signed_out : Env :=
  {| employee := None;
     today := "2024-01-15";
     clock := Day.nine;
     clockAfter := Day.nine + 400;
     thirtyDaysAgo := "2023-12-16";
     monthStart := "2024-01-01";
     monthEnd := "2024-01-31";
     todayFault := None;
     historyFault := None;
     monthFault := None;
     insertFault := None;
     updateFault := None |}.

(** The update is refused for a reason of the store's own. *)
Definition update_down (now : Instant) : Env :=
  {| employee := Some "emp1";
     today := "2024-01-15";
     clock := now;
     clockAfter := now + 400;
     thirtyDaysAgo := "2023-12-16";
     monthStart := "2024-01-01";
     monthEnd := "2024-01-31";
     todayFault := None;
     historyFault := None;
     monthFault := None;
     insertFault := None;
     updateFault := Some (mkError "42501" "") |}.

(** A punch is in flight. *)
Definition busy : World :=
  {| store := [Day.open_record];
     todayRecord := Some Day.open_record;
     attendanceHistory := [Day.open_record];
     monthlyHours := 0%float;
     loading := false;
     punching := true;
     toasts := [];
     requests := [] |}.

(** January so far, in the order the rows were written. *)
Definition january : World :=
  Day.table [Day.jan10; Day.jan11; Day.jan12; Day.open_record].

(** The next day: punched in at 07:30, page loaded. *)
Definition half_past_seven : Instant := Day.nine + Day.day - Day.hm 1 30.

Definition early_record : AttendanceRecord :=
  {| id := "4";
     employee_id := "emp1";
     attendance_date := "2024-01-16";
     punch_in_time := half_past_seven;
     punch_out_time := None;
     total_hours := None;
     status := Some "present";
     notes := None |}.

Definition early_bird : World :=
  {| store := [Day.closed_record; early_record];
     todayRecord := Some early_record;
     attendanceHistory := [early_record; Day.closed_record];
     monthlyHours := 9%float;
     loading := false;
     punching := false;
     toasts := [];
     requests := [] |}.

Definition next_day (now : Instant) : Env :=
  {| employee := Some "emp1";
     today := "2024-01-16";
     clock := now;
     clockAfter := now + 400;
     thirtyDaysAgo := "2023-12-17";
     monthStart := "2024-01-01";
     monthEnd := "2024-01-31";
     todayFault := None;
     historyFault := None;
     monthFault := None;
     insertFault := None;
     updateFault := None |}.

(** January with today's open record, which has no total yet, first. *)
Definition open_first : World :=
  Day.table [Day.open_record; Day.jan12; Day.jan11; Day.jan10].

End Cases.

(* ================================================================== *)
(** ** Comparing and adding numbers

    [<], [<=] and [+] on numbers are the IEEE operations; the facts below
    are read off their specification on [spec_float]. *)

Lemma SFcompare_swap (a b : spec_float) :
  SFcompare b a = option_map CompOpp (SFcompare a b).
Proof.
  destruct a as [sa|sa| |sa ma ea], b as [sb|sb| |sb mb eb]; simpl;
    try reflexivity;
    try (destruct sa; reflexivity); try (destruct sb; reflexivity);
    try (destruct sa, sb; reflexivity).
  f_equal.
  change (PosDef.Pos.compare_cont Eq mb ma) with (Pos.compare mb ma).
  change (PosDef.Pos.compare_cont Eq ma mb) with (Pos.compare ma mb).
  rewrite (Z.compare_antisym ea eb), (Pos.compare_antisym ma mb).
  destruct sa, sb; try reflexivity;
    destruct (ea ?= eb)%Z; simpl; try reflexivity;
    destruct (ma ?= mb)%positive; reflexivity.
Qed.

Lemma SFltb_not_SFleb (a b : spec_float) :
  SFltb a b = true -> SFleb b a = false.
Proof.
  unfold SFltb, SFleb. rewrite (SFcompare_swap a b).
  destruct (SFcompare a b) as [[]|]; simpl; congruence.
Qed.

(** Below [m * 2^e1], hence not at or above [m * 2^e2] when [e1 < e2]. *)
Lemma SFltb_low_not_SFleb_high (x : spec_float) (m : positive) (e1 e2 : Z) :
  (e1 < e2)%Z ->
  SFltb x (S754_finite false m e1) = true ->
  SFleb (S754_finite false m e2) x = false.
Proof.
  intros He. unfold SFltb, SFleb.
  destruct x as [s|s| |s mx ex]; simpl.
  - reflexivity.
  - destruct s; simpl; congruence.
  - reflexivity.
  - destruct s; [reflexivity|].
    change (PosDef.Pos.compare_cont Eq mx m) with (Pos.compare mx m).
    change (PosDef.Pos.compare_cont Eq m mx) with (Pos.compare m mx).
    destruct (Z.compare_spec ex e1); destruct (Z.compare_spec e2 ex);
      try lia; try reflexivity; try discriminate.
Qed.

Lemma ltb_not_leb (x y : float) :
  PrimFloat.ltb x y = true -> PrimFloat.leb y x = false.
Proof. rewrite ltb_spec, leb_spec. apply SFltb_not_SFleb. Qed.

Lemma below_4_not_above_8 (x : float) :
  PrimFloat.ltb x 4 = true -> PrimFloat.leb 8 x = false.
Proof.
  rewrite ltb_spec, leb_spec.
  change (Prim2SF 4) with (S754_finite false 4503599627370496 (-50)).
  change (Prim2SF 8) with (S754_finite false 4503599627370496 (-49)).
  apply SFltb_low_not_SFleb_high. lia.
Qed.

(** Addition of numbers is commutative, and adding to [0] changes
    nothing but a [-0]. *)
Lemma SFadd_comm (prec emax : Z) (x y : spec_float) :
  SFadd prec emax x y = SFadd prec emax y x.
Proof.
  destruct x as [sx|sx| |sx mx ex], y as [sy|sy| |sy my ey]; simpl;
    try reflexivity; try (destruct sx, sy; reflexivity).
  rewrite (Z.min_comm ex ey). f_equal. apply Z.add_comm.
Qed.

Lemma add_comm (x y : float) : PrimFloat.add x y = PrimFloat.add y x.
Proof. apply Prim2SF_inj. rewrite !add_spec. apply SFadd_comm. Qed.

Lemma zero_add (a : float) :
  Prim2SF a <> S754_zero true -> PrimFloat.add 0 a = a.
Proof.
  intros Ha. apply Prim2SF_inj. rewrite add_spec.
  change (Prim2SF 0) with (S754_zero false). unfold SF64add.
  destruct (Prim2SF a) as [s|s| |s m e]; simpl; try reflexivity.
  destruct s; [contradiction | reflexivity].
Qed.

Lemma eqb_zero_false (x : float) :
  PrimFloat.eqb x 0 = false -> forall s, Prim2SF x <> S754_zero s.
Proof.
  rewrite FloatAxioms.eqb_spec. change (Prim2SF 0) with (S754_zero false).
  intros H s Hx. rewrite Hx in H. destruct s; discriminate H.
Qed.

(** [x || 0] is never [-0]. *)
Lemma or_zero_not_neg_zero (o : option float) :
  Prim2SF (JS.or_zero o) <> S754_zero true.
Proof.
  unfold JS.or_zero, JS.truthy_num. destruct o as [x|]; [|discriminate].
  destruct (PrimFloat.eqb x 0) eqn:E; simpl; [discriminate|].
  destruct (JS.is_nan x); simpl; [discriminate|].
  apply eqb_zero_false. exact E.
Qed.

(** The three thresholds, each read as a comparison of its own. *)
Lemma statusFor_cases (h : float) :
  (PrimFloat.leb 8 h = true -> statusFor h = "present") /\
  (PrimFloat.leb 4 h = true -> PrimFloat.ltb h 8 = true -> statusFor h = "partial") /\
  (PrimFloat.ltb h 4 = true -> statusFor h = "absent").
Proof.
  unfold statusFor. repeat split.
  - intros ->. reflexivity.
  - intros H4 H8. rewrite (ltb_not_leb _ _ H8), H4. reflexivity.
  - intros H4. rewrite (below_4_not_above_8 _ H4), (ltb_not_leb _ _ H4). reflexivity.
Qed.

(* ================================================================== *)
(** ** Rounding *)

Lemma floor_half_nearest (a P n' : Z) :
  0 < P ->
  let n := (2 * a + P) / (2 * P) in
  Z.abs (n * P - a) <= Z.abs (n' * P - a) /\
  (Z.abs (n' * P - a) = Z.abs (n * P - a) -> n' <= n).
Proof.
  intros HP n.
  assert (Hlo : 2 * P * n <= 2 * a + P).
  { apply Z.mul_div_le. lia. }
  assert (Hhi : 2 * a + P < 2 * P * n + 2 * P).
  { pose proof (Z.mul_succ_div_gt (2 * a + P) (2 * P) ltac:(lia)) as H.
    fold n in H. lia. }
  destruct (Z.lt_trichotomy n' n) as [Hlt | [-> | Hgt]].
  - assert (n' * P <= n * P - P) by nia. split; lia.
  - split; lia.
  - assert (n * P + P <= n' * P) by nia. split; lia.
Qed.

Lemma round_scaled_nearest (f : nat) (m : positive) (e : Z) :
  nearest_ties_up f m e (JS.round_scaled f m e).
Proof.
  intros n'. unfold scaled_distance, JS.round_scaled.
  destruct (Z.leb_spec 0 e) as [He | He].
  - rewrite (Z.max_l 0 (- e)), (Z.max_r 0 e) by lia.
    change (2 ^ 0) with 1. split; [lia|].
    intros H. lia.
  - rewrite (Z.max_r 0 (- e)), (Z.max_l 0 e) by lia.
    change (2 ^ 0) with 1. rewrite Z.mul_1_r.
    replace (2 ^ (- e + 1)) with (2 * 2 ^ (- e))
      by (rewrite Z.pow_add_r by lia; lia).
    apply floor_half_nearest. apply Z.pow_pos_nonneg; lia.
Qed.

(** [toFixed] on a finite number below 10^21. *)
Lemma toFixed_finite (f : nat) (x : float) (s : bool) (m : positive) (e : Z) :
  Prim2SF x = S754_finite s m e ->
  PrimFloat.leb JS.ten21 (PrimFloat.abs x) = false ->
  JS.toFixed f x = JS.FDec s (JS.round_scaled f m e) f.
Proof. intros Hx Hb. unfold JS.toFixed. rewrite Hx, Hb. reflexivity. Qed.

(* ================================================================== *)
(** ** One run of each handler *)

(** Reading the fields of an explicit [World]. *)
Ltac fields :=
  cbn [store todayRecord attendanceHistory monthlyHours loading punching toasts requests].

Lemma handlePunchOut_run (env : Env) (w : World) (emp : string) (r : AttendanceRecord) :
  signedIn env = Some emp ->
  todayRecord w = Some r ->
  handlePunchOut env w =
    (Done tt,
     match updateFault env with
     | None =>
         mkWorld (updated (id r) (punchOutPatch (clock env) r) (store w))
                 (todayRecord w) (attendanceHistory w) (monthlyHours w) (loading w)
                 false
                 (toasts w ++ [punchedOutToast (clock env) r])
                 (requests w ++ [ReqUpdate (id r) (punchOutPatch (clock env) r)])
     | Some e =>
         mkWorld (store w)
                 (todayRecord w) (attendanceHistory w) (monthlyHours w) (loading w)
                 false
                 (toasts w ++ [errorToast "Failed to punch out" e])
                 (requests w ++ [ReqUpdate (id r) (punchOutPatch (clock env) r)])
     end).
Proof.
  intros Hemp Hrec. destruct w as [st tr ah mh ld pu ts rq]. simpl in Hrec. subst tr.
  unfold handlePunchOut, bind, readTodayRecord. cbn [todayRecord]. rewrite Hemp.
  unfold try_catch_finally, call, bind, Store.update, setPunching, toast, throw.
  fields.
  destruct (updateFault env) as [e|]; reflexivity.
Qed.

Lemma handlePunchIn_run (env : Env) (w : World) (emp : string) :
  signedIn env = Some emp ->
  handlePunchIn env w =
    (Done tt,
     let answer := Store.insert (insertFault env) (punchInPayload env emp) (store w) in
     mkWorld (snd answer)
             (todayRecord w) (attendanceHistory w) (monthlyHours w) (loading w)
             false
             (toasts w ++
                [match fst answer with
                 | None => punchedInToast (clockAfter env)
                 | Some e =>
                     if String.eqb (code e) "23505" then alreadyPunchedInToast
                     else errorToast "Failed to punch in" e
                 end])
             (requests w ++ [ReqInsert (punchInPayload env emp)])).
Proof.
  intros Hemp. destruct w as [st tr ah mh ld pu ts rq].
  unfold handlePunchIn. rewrite Hemp.
  unfold try_catch_finally, call, bind, setPunching, toast, throw.
  fields.
  fold (punchInPayload env emp).
  destruct (Store.insert (insertFault env) (punchInPayload env emp) st) as [[e|] rows];
    cbn [fst snd]; [destruct (String.eqb (code e) "23505")|]; reflexivity.
Qed.

Lemma fetchAttendance_run (env : Env) (w : World) (emp : string) :
  fetchAttendance env emp w =
    (Done tt,
     let r1 := Store.select_today (todayFault env) emp (today env) (store w) in
     let r2 := Store.select_history (historyFault env) emp (thirtyDaysAgo env) (store w) in
     let r3 := Store.select_month (monthFault env) emp (monthStart env) (monthEnd env)
                 (store w) in
     let q1 := ReqSelectToday emp (today env) in
     let q2 := ReqSelectHistory emp (thirtyDaysAgo env) in
     let q3 := ReqSelectMonth emp (monthStart env) (monthEnd env) in
     match error r1, error r2, error r3 with
     | Some _, _, _ =>
         mkWorld (store w) (todayRecord w) (attendanceHistory w) (monthlyHours w)
                 false (punching w) (toasts w ++ [loadErrorToast])
                 (requests w ++ [q1])
     | None, Some _, _ =>
         mkWorld (store w) (data r1) (attendanceHistory w) (monthlyHours w)
                 false (punching w) (toasts w ++ [loadErrorToast])
                 ((requests w ++ [q1]) ++ [q2])
     | None, None, Some _ =>
         mkWorld (store w) (data r1) (or_empty (data r2)) (monthlyHours w)
                 false (punching w) (toasts w ++ [loadErrorToast])
                 (((requests w ++ [q1]) ++ [q2]) ++ [q3])
     | None, None, None =>
         mkWorld (store w) (data r1) (or_empty (data r2)) (sumTotalHours (data r3))
                 false (punching w) (toasts w)
                 (((requests w ++ [q1]) ++ [q2]) ++ [q3])
     end).
Proof.
  destruct w as [st tr ah mh ld pu ts rq].
  unfold fetchAttendance, try_catch_finally, call, bind, setLoading, setTodayRecord,
    setAttendanceHistory, setMonthlyHours, toast, throw, loadErrorToast.
  fields.
  destruct (error (Store.select_today (todayFault env) emp (today env) st)); [reflexivity|].
  fields.
  destruct (error (Store.select_history (historyFault env) emp (thirtyDaysAgo env) st));
    [reflexivity|].
  fields.
  destruct (error (Store.select_month (monthFault env) emp (monthStart env) (monthEnd env) st));
    reflexivity.
Qed.

(* ================================================================== *)
(** ** Rows after an update *)

Lemma updated_hit (target : string) (p : UpdatePatch)
    (rows : list AttendanceRecord) (row : AttendanceRecord) :
  In row rows -> id row = target -> In (Store.apply_patch p row) (updated target p rows).
Proof.
  intros Hin Hid. unfold updated. apply in_map_iff. exists row. split; [|exact Hin].
  rewrite Hid, String.eqb_refl. reflexivity.
Qed.

Lemma updated_inv (target : string) (p : UpdatePatch)
    (rows : list AttendanceRecord) (row' : AttendanceRecord) :
  In row' (updated target p rows) ->
  (exists row, In row rows /\ id row = target /\ row' = Store.apply_patch p row)
  \/ (In row' rows /\ id row' <> target).
Proof.
  unfold updated. intros Hin. apply in_map_iff in Hin. destruct Hin as (row & Heq & Hin).
  destruct (String.eqb_spec (id row) target) as [Hid | Hid].
  - left. exists row. auto.
  - right. subst row'. auto.
Qed.

Lemma updated_target (target : string) (p : UpdatePatch)
    (rows : list AttendanceRecord) (row' : AttendanceRecord) :
  In row' (updated target p rows) -> id row' = target ->
  exists row, In row rows /\ id row = target /\ row' = Store.apply_patch p row.
Proof.
  intros Hin Hid. destruct (updated_inv _ _ _ _ Hin) as [H | [_ H]]; [exact H | contradiction].
Qed.

(* ================================================================== *)
(** ** Punch-out *)

(** The hours worked, written out: the difference of the two time
    values, each the number for the instant's milliseconds (or NaN for an
    instant no [Date] can hold), divided by 3600000, all in binary64. *)
Lemma hoursWorked_written_out (now : Instant) (r : AttendanceRecord) :
  hoursWorked now r =
    PrimFloat.div
      (PrimFloat.sub
         (if (Z.abs now <=? 8640000000000000)%Z
          then SF2Prim (binary_normalize prec emax now 0 false) else PrimFloat.nan)
         (if (Z.abs (punch_in_time r) <=? 8640000000000000)%Z
          then SF2Prim (binary_normalize prec emax (punch_in_time r) 0 false)
          else PrimFloat.nan))
      3600000.
Proof. reflexivity. Qed.

(** C1: at a punch-out that the store accepts, the status sent and
    stored on the record is fixed by the hours worked alone - the clock's
    instant minus the record's punchInTime, in milliseconds as numbers,
    divided by 3600000: 'present' from 8 hours on, 'partial' from 4 hours
    up to 8, 'absent' below 4. *)
Theorem punch_out_status_by_hours
    (env : Env) (w : World) (emp : string) (r : AttendanceRecord) :
  signedIn env = Some emp ->
  todayRecord w = Some r ->
  updateFault env = None ->
  let number := fun z : Z => SF2Prim (binary_normalize prec emax z 0 false) in
  let time := fun t : Instant =>
                if (Z.abs t <=? 8640000000000000)%Z then number t else PrimFloat.nan in
  let h := PrimFloat.div (PrimFloat.sub (time (clock env)) (time (punch_in_time r)))
                         3600000 in
  let w' := exec (handlePunchOut env) w in
  exists s : string,
    (exists p, requests w' = requests w ++ [ReqUpdate (id r) p] /\ upd_status p = s) /\
    (forall row, In row (store w) -> id row = id r ->
       exists row', In row' (store w') /\ id row' = id r /\ status row' = Some s) /\
    (forall row', In row' (store w') -> id row' = id r -> status row' = Some s) /\
    (PrimFloat.leb 8 h = true -> s = "present") /\
    (PrimFloat.leb 4 h = true -> PrimFloat.ltb h 8 = true -> s = "partial") /\
    (PrimFloat.ltb h 4 = true -> s = "absent").
Proof.
  intros Hemp Hrec Hok number time h w'.
  assert (Hh : hoursWorked (clock env) r = h) by apply hoursWorked_written_out.
  assert (Hw' : w' = mkWorld (updated (id r) (punchOutPatch (clock env) r) (store w))
                 (todayRecord w) (attendanceHistory w) (monthlyHours w) (loading w)
                 false (toasts w ++ [punchedOutToast (clock env) r])
                 (requests w ++ [ReqUpdate (id r) (punchOutPatch (clock env) r)])).
  { unfold w', exec. rewrite (handlePunchOut_run env w emp r Hemp Hrec), Hok. reflexivity. }
  exists (statusFor h). rewrite Hw'. cbn [store requests].
  split; [|split; [|split]].
  - exists (punchOutPatch (clock env) r). split; [reflexivity|].
    unfold punchOutPatch. cbn [upd_status]. rewrite Hh. reflexivity.
  - intros row Hin Hid. exists (Store.apply_patch (punchOutPatch (clock env) r) row).
    split; [apply updated_hit; assumption|]. split; [exact Hid|].
    unfold punchOutPatch. cbn [Store.apply_patch status upd_status]. rewrite Hh. reflexivity.
  - intros row' Hin Hid.
    destruct (updated_target _ _ _ _ Hin Hid) as (row & _ & _ & ->).
    unfold punchOutPatch. cbn [Store.apply_patch status upd_status]. rewrite Hh. reflexivity.
  - apply statusFor_cases.
Qed.

Lemma punch_out_status_by_hours_witness :
  signedIn (Day.env_at (Day.nine + Day.hm 5 30)) = Some "emp1" /\
  todayRecord Day.clocked_in = Some Day.open_record /\
  updateFault (Day.env_at (Day.nine + Day.hm 5 30)) = None /\
  (exists s : string,
    (forall row',
        In row' (store (exec (handlePunchOut (Day.env_at (Day.nine + Day.hm 5 30)))
                          Day.clocked_in)) ->
        id row' = "0" -> status row' = Some s) /\
    s = "partial") /\
  (exists s : string,
    (forall row',
        In row' (store (exec (handlePunchOut
                                (Cases.next_day (Cases.half_past_seven + Day.hm 8 0)))
                          Cases.early_bird)) ->
        id row' = "4" -> status row' = Some s) /\
    s = "present") /\
  store (exec (handlePunchOut (Cases.next_day (Cases.half_past_seven + Day.hm 3 59)))
           Cases.early_bird)
  = [Day.closed_record;
     {| id := "4";
        employee_id := "emp1";
        attendance_date := "2024-01-16";
        punch_in_time := Cases.half_past_seven;
        punch_out_time := Some (Cases.half_past_seven + Day.hm 3 59);
        total_hours := Some (PrimFloat.div 398 100);
        status := Some "absent";
        notes := None |}].
Proof.
  split; [reflexivity|]. split; [reflexivity|]. split; [reflexivity|].
  split; [|split].
  - destruct (punch_out_status_by_hours (Day.env_at (Day.nine + Day.hm 5 30))
                Day.clocked_in "emp1" Day.open_record eq_refl eq_refl eq_refl)
      as (s & _ & _ & Hstored & _ & Hpartial & _).
    exists s. split; [exact Hstored|].
    apply Hpartial; vm_compute; reflexivity.
  - destruct (punch_out_status_by_hours
                (Cases.next_day (Cases.half_past_seven + Day.hm 8 0))
                Cases.early_bird "emp1" Cases.early_record eq_refl eq_refl eq_refl)
      as (s & _ & _ & Hstored & Hpresent & _).
    exists s. split; [exact Hstored|].
    apply Hpresent; vm_compute; reflexivity.
  - vm_compute. reflexivity.
Defined.

(** C6: a punch-out sends one update, addressed to the loaded record's
    id, that carries punchOutTime (the punch-out instant), totalHours and
    status together. totalHours is the elapsed time - the clock's instant
    minus the record's punchInTime, in hours - rounded to two decimals:
    with n the nearest number of hundredths (the upper one at a tie), it
    is the number n / 100, with the sign of the elapsed time; and the
    accepted update leaves exactly these values on the record. *)
Theorem punch_out_total_hours
    (env : Env) (w : World) (emp : string) (r : AttendanceRecord) :
  signedIn env = Some emp ->
  todayRecord w = Some r ->
  let number := fun z : Z => SF2Prim (binary_normalize prec emax z 0 false) in
  let time := fun t : Instant =>
                if (Z.abs t <=? 8640000000000000)%Z then number t else PrimFloat.nan in
  let h := PrimFloat.div (PrimFloat.sub (time (clock env)) (time (punch_in_time r)))
                         3600000 in
  let w' := exec (handlePunchOut env) w in
  exists total : float,
    requests w' =
      requests w ++ [ReqUpdate (id r) {| upd_punch_out_time := clock env;
                                         upd_total_hours := total;
                                         upd_status := statusFor h |}] /\
    total = JS.parseFloat (JS.toFixed 2 h) /\
    (forall s m e,
        Prim2SF h = S754_finite s m e ->
        PrimFloat.leb 1e21 (PrimFloat.abs h) = false ->
        exists n : Z,
          JS.toFixed 2 h = JS.FDec s n 2 /\
          nearest_ties_up 2 m e n /\
          total = if s then PrimFloat.opp (PrimFloat.div (number n) 100)
                  else PrimFloat.div (number n) 100) /\
    (forall s, Prim2SF h = S754_zero s -> total = 0%float) /\
    (updateFault env = None ->
     (forall row, In row (store w) -> id row = id r ->
        exists row', In row' (store w') /\ id row' = id r) /\
     (forall row', In row' (store w') -> id row' = id r ->
        punch_out_time row' = Some (clock env) /\
        total_hours row' = Store.json_number total /\
        (forall s m e, Prim2SF total = S754_finite s m e -> total_hours row' = Some total) /\
        (forall s, Prim2SF total = S754_zero s -> total_hours row' = Some 0%float) /\
        (Prim2SF total = S754_nan -> total_hours row' = None) /\
        status row' = Some (statusFor h))).
Proof.
  intros Hemp Hrec number time h w'.
  assert (Hh : hoursWorked (clock env) r = h) by apply hoursWorked_written_out.
  assert (Hw' : w' = snd (handlePunchOut env w)) by reflexivity.
  rewrite (handlePunchOut_run env w emp r Hemp Hrec) in Hw'. cbn [snd] in Hw'.
  unfold punchOutPatch in Hw'. rewrite Hh in Hw'.
  exists (JS.parseFloat (JS.toFixed 2 h)).
  split; [|split; [|split; [|split]]].
  - rewrite Hw'. destruct (updateFault env); reflexivity.
  - reflexivity.
  - intros s m e Hfin Hsmall. exists (JS.round_scaled 2 m e).
    assert (Hfix : JS.toFixed 2 h = JS.FDec s (JS.round_scaled 2 m e) 2)
      by (apply toFixed_finite; assumption).
    split; [exact Hfix|]. split; [apply round_scaled_nearest|].
    rewrite Hfix. destruct s; reflexivity.
  - intros s Hz. unfold JS.toFixed. rewrite Hz. vm_compute. reflexivity.
  - intros Hok. rewrite Hok in Hw'. rewrite Hw'. cbn [store]. split.
    + intros row Hin Hid.
      eexists. split; [apply updated_hit; eassumption | exact Hid].
    + intros row' Hin Hid.
      destruct (updated_target _ _ _ _ Hin Hid) as (row & _ & _ & ->).
      cbn [Store.apply_patch punch_out_time total_hours status
           upd_punch_out_time upd_total_hours upd_status].
      split; [reflexivity|]. split; [reflexivity|].
      split; [|split; [|split; [|reflexivity]]].
      * intros s m e Ht. unfold Store.json_number. rewrite Ht. reflexivity.
      * intros s Ht. unfold Store.json_number. rewrite Ht. reflexivity.
      * intros Ht. unfold Store.json_number. rewrite Ht. reflexivity.
Qed.

Lemma punch_out_total_hours_witness :
  signedIn (Day.env_at (Day.nine + Day.hm 8 15)) = Some "emp1" /\
  todayRecord Day.clocked_in = Some Day.open_record /\
  requests (exec (handlePunchOut (Day.env_at (Day.nine + Day.hm 8 15))) Day.clocked_in) =
    [ReqUpdate "0" {| upd_punch_out_time := Day.nine + Day.hm 8 15;
                      upd_total_hours := 8.25;
                      upd_status := "present" |}] /\
  requests (exec (handlePunchOut (Cases.next_day (Cases.half_past_seven + Day.hm 4 15)))
              Cases.early_bird) =
    [ReqUpdate "4" {| upd_punch_out_time := Cases.half_past_seven + Day.hm 4 15;
                      upd_total_hours := 4.25;
                      upd_status := "partial" |}].
Proof.
  split; [reflexivity|]. split; [reflexivity|]. split.
  - destruct (punch_out_total_hours (Day.env_at (Day.nine + Day.hm 8 15))
                Day.clocked_in "emp1" Day.open_record eq_refl eq_refl)
      as (total & Hreq & Htotal & _).
    rewrite Hreq, Htotal. vm_compute. reflexivity.
  - destruct (punch_out_total_hours (Cases.next_day (Cases.half_past_seven + Day.hm 4 15))
                Cases.early_bird "emp1" Cases.early_record eq_refl eq_refl)
      as (total & Hreq & Htotal & _).
    rewrite Hreq, Htotal. vm_compute. reflexivity.
Defined.

(** The spec's worked examples: nine hours give 9.00 and 'present';
    09:00 to 17:15 gives 8.25 and 'present'; 5h30m gives 'partial'; three
    hours give 'absent'. *)
Example punch_out_after_9h :
  punchOutPatch (Day.nine + Day.hm 9 0) Day.open_record =
    {| upd_punch_out_time := Day.nine + Day.hm 9 0;
       upd_total_hours := hundredths 900;
       upd_status := "present" |}
  /\ JS.toFixed 2 (hoursWorked (Day.nine + Day.hm 9 0) Day.open_record) = JS.FDec false 900 2.
Proof. split; vm_compute; reflexivity. Qed.

Example punch_out_at_17_15 :
  punchOutPatch (Day.nine + Day.hm 8 15) Day.open_record =
    {| upd_punch_out_time := Day.nine + Day.hm 8 15;
       upd_total_hours := hundredths 825;
       upd_status := "present" |}.
Proof. vm_compute. reflexivity. Qed.

Example punch_out_after_5h30 :
  upd_status (punchOutPatch (Day.nine + Day.hm 5 30) Day.open_record) = "partial".
Proof. vm_compute. reflexivity. Qed.

Example punch_out_after_3h :
  upd_status (punchOutPatch (Day.nine + Day.hm 3 0) Day.open_record) = "absent".
Proof. vm_compute. reflexivity. Qed.

(** One millisecond short of eight hours: the total rounds to 8.00 while
    the status, taken from the unrounded hours, is 'partial'. *)
Example punch_out_just_under_8h :
  punchOutPatch (Day.nine + Day.hm 8 0 - 1) Day.open_record =
    {| upd_punch_out_time := Day.nine + Day.hm 8 0 - 1;
       upd_total_hours := hundredths 800;
       upd_status := "partial" |}.
Proof. vm_compute. reflexivity. Qed.

(** 1h00m18s is 1.005 hours; the number nearest to it lies just below,
    so the total written is 1.00. *)
Example punch_out_after_1h_0m_18s :
  JS.toFixed 2 (hoursWorked (Day.nine + 3618000) Day.open_record) = JS.FDec false 100 2 /\
  upd_total_hours (punchOutPatch (Day.nine + 3618000) Day.open_record) = hundredths 100.
Proof. split; vm_compute; reflexivity. Qed.

(** The three January totals used below are what punch-outs store. *)
Example january_totals :
  upd_total_hours (punchOutPatch (Day.nine + Day.hm 8 6) Day.open_record) = hundredths 810 /\
  upd_total_hours (punchOutPatch (Day.nine + Day.hm 8 12) Day.open_record) = hundredths 820 /\
  upd_total_hours (punchOutPatch (Day.nine + Day.hm 8 3) Day.open_record) = hundredths 805.
Proof. repeat split; vm_compute; reflexivity. Qed.

(** C2: punch-out is effective only when a record with punchOutTime
    absent is loaded. In any other state - no record loaded, or a record
    whose punchOutTime is already set - the Punch Out button is disabled
    and a click is a no-op that leaves everything, the record included,
    as it was; the handler itself returns at once when no employee is
    signed in or no record is loaded. A click that sends a request or
    changes the table found an open record loaded. *)
Theorem punch_out_noop (env : Env) (w : World) :
  (todayRecord w = None -> handlePunchOut env w = (Done tt, w)) /\
  (signedIn env = None -> handlePunchOut env w = (Done tt, w)) /\
  (todayRecord w = None -> clickPunchOut env w = (Done tt, w)) /\
  (forall r t, todayRecord w = Some r -> punch_out_time r = Some t ->
     clickPunchOut env w = (Done tt, w)) /\
  (requests (exec (clickPunchOut env) w) <> requests w \/
   store (exec (clickPunchOut env) w) <> store w ->
   exists r, todayRecord w = Some r /\ punch_out_time r = None).
Proof.
  assert (Hnone : todayRecord w = None -> clickPunchOut env w = (Done tt, w)).
  { intros Hrec. unfold clickPunchOut, punchOutDisabled, isPunchedIn. rewrite Hrec.
    destruct (loading w); reflexivity. }
  assert (Hclosed : forall r t, todayRecord w = Some r -> punch_out_time r = Some t ->
                                clickPunchOut env w = (Done tt, w)).
  { intros r t Hrec Hout. unfold clickPunchOut, punchOutDisabled, isPunchedIn.
    rewrite Hrec, Hout. destruct (loading w); reflexivity. }
  split; [|split; [|split; [|split]]].
  - intros Hrec. unfold handlePunchOut, bind, readTodayRecord. rewrite Hrec.
    destruct (signedIn env); reflexivity.
  - intros Hemp. unfold handlePunchOut, bind, readTodayRecord. rewrite Hemp. reflexivity.
  - exact Hnone.
  - exact Hclosed.
  - intros Hchange.
    destruct (todayRecord w) as [r|] eqn:Hrec.
    + destruct (punch_out_time r) as [t|] eqn:Hout.
      * exfalso. unfold exec in Hchange. rewrite (Hclosed r t eq_refl Hout) in Hchange.
        cbn [snd] in Hchange. destruct Hchange as [H | H]; apply H; reflexivity.
      * exists r. split; [reflexivity | exact Hout].
    + exfalso. unfold exec in Hchange. rewrite (Hnone eq_refl) in Hchange.
      cbn [snd] in Hchange. destruct Hchange as [H | H]; apply H; reflexivity.
Qed.

Lemma punch_out_noop_witness :
  todayRecord Day.clocked_out = Some Day.closed_record /\
  punch_out_time Day.closed_record = Some (Day.nine + Day.hm 9 0) /\
  clickPunchOut (Day.env_at (Day.nine + Day.hm 10 0)) Day.clocked_out
    = (Done tt, Day.clocked_out).
Proof.
  split; [reflexivity|]. split; [reflexivity|].
  apply (proj1 (proj2 (proj2 (proj2 (punch_out_noop (Day.env_at (Day.nine + Day.hm 10 0))
                                        Day.clocked_out))))
           Day.closed_record (Day.nine + Day.hm 9 0));
    reflexivity.
Defined.

(* ================================================================== *)
(** ** Punch-in *)

(** A rejected insert leaves the table as it was. *)
Lemma insert_rejected (fault : option StoreError) (p : InsertPayload)
    (rows : list AttendanceRecord) (e : StoreError) :
  fst (Store.insert fault p rows) = Some e -> snd (Store.insert fault p rows) = rows.
Proof.
  unfold Store.insert. destruct fault as [e'|]; [reflexivity|].
  destruct (existsb _ rows); [reflexivity | discriminate].
Qed.

Lemma insert_duplicate (p : InsertPayload) (rows : list AttendanceRecord) :
  existsb (Store.for_day (ins_employee_id p) (ins_attendance_date p)) rows = true ->
  Store.insert None p rows = (Some Store.unique_violation, rows).
Proof. intros H. unfold Store.insert. rewrite H. reflexivity. Qed.

Lemma insert_accepted (p : InsertPayload) (rows : list AttendanceRecord) :
  existsb (Store.for_day (ins_employee_id p) (ins_attendance_date p)) rows = false ->
  Store.insert None p rows = (None, rows ++ [Store.new_row rows p]).
Proof. intros H. unfold Store.insert. rewrite H. reflexivity. Qed.

(** C3: when the store rejects the insert with code 23505, punch-in ends
    normally with the one toast 'Already Punched In' and no new row; a
    rejection with any other code ends with the one generic 'Error' toast
    and no new row. The store answers 23505 when a row for (employee,
    today) is already there. *)
Theorem punch_in_rejected (env : Env) (w : World) (emp : string) :
  signedIn env = Some emp ->
  let w' := exec (handlePunchIn env) w in
  (forall e : StoreError,
      fst (Store.insert (insertFault env) (punchInPayload env emp) (store w)) = Some e ->
      outcome (handlePunchIn env) w = Done tt /\
      store w' = store w /\
      (code e = "23505" -> toasts w' = toasts w ++ [alreadyPunchedInToast]) /\
      (code e <> "23505" -> toasts w' = toasts w ++ [errorToast "Failed to punch in" e])) /\
  (insertFault env = None ->
   existsb (Store.for_day emp (today env)) (store w) = true ->
   store w' = store w /\ toasts w' = toasts w ++ [alreadyPunchedInToast]).
Proof.
  intros Hemp w'.
  assert (Hrun := handlePunchIn_run env w emp Hemp).
  assert (Hw' : w' = snd (handlePunchIn env w)) by reflexivity.
  rewrite Hrun in Hw'. cbn [snd] in Hw'. cbv zeta in Hw'.
  split.
  - intros e He. split; [unfold outcome; rewrite Hrun; reflexivity|].
    rewrite Hw'. cbn [store toasts]. rewrite He.
    split; [apply (insert_rejected _ _ _ e He)|]. split.
    + intros Hc. rewrite Hc. reflexivity.
    + intros Hc. apply String.eqb_neq in Hc. rewrite Hc. reflexivity.
  - intros Hok Hdup. rewrite Hw'. cbn [store toasts]. rewrite Hok.
    rewrite (insert_duplicate (punchInPayload env emp) (store w) Hdup).
    split; reflexivity.
Qed.

Lemma punch_in_rejected_witness :
  signedIn (Day.env_at (Day.nine + Day.hm 0 5)) = Some "emp1" /\
  store (exec (handlePunchIn (Day.env_at (Day.nine + Day.hm 0 5))) Day.clocked_in)
    = [Day.open_record] /\
  toasts (exec (handlePunchIn (Day.env_at (Day.nine + Day.hm 0 5))) Day.clocked_in)
    = [alreadyPunchedInToast].
Proof.
  split; [reflexivity|].
  apply (proj2 (punch_in_rejected (Day.env_at (Day.nine + Day.hm 0 5)) Day.clocked_in
                  "emp1" eq_refl));
    reflexivity.
Defined.

(** C8: a punch-in that the store accepts sends one insert for
    (employee, today) with punchInTime the current instant and status
    'present', and the table gains exactly one row with these values,
    totalHours absent and punchOutTime absent. The 'Punched In' toast
    shows the time read again after the insert has resolved. *)
Theorem punch_in_inserts (env : Env) (w : World) (emp : string) :
  signedIn env = Some emp ->
  insertFault env = None ->
  existsb (Store.for_day emp (today env)) (store w) = false ->
  let w' := exec (handlePunchIn env) w in
  requests w' =
    requests w ++ [ReqInsert {| ins_employee_id := emp;
                                ins_attendance_date := today env;
                                ins_punch_in_time := clock env;
                                ins_status := "present" |}] /\
  toasts w' =
    toasts w ++ [{| title := "Punched In";
                    description := [Lit "Successfully punched in at ";
                                    HHmm (clockAfter env)];
                    variant := None |}] /\
  exists row : AttendanceRecord,
    store w' = store w ++ [row] /\
    employee_id row = emp /\
    attendance_date row = today env /\
    punch_in_time row = clock env /\
    status row = Some "present" /\
    total_hours row = None /\
    punch_out_time row = None.
Proof.
  intros Hemp Hok Hnew w'.
  assert (Hw' : w' = snd (handlePunchIn env w)) by reflexivity.
  rewrite (handlePunchIn_run env w emp Hemp) in Hw'. cbn [snd] in Hw'. cbv zeta in Hw'.
  rewrite Hok, (insert_accepted (punchInPayload env emp) (store w) Hnew) in Hw'.
  cbn [fst snd] in Hw'. rewrite Hw'. cbn [store toasts requests].
  split; [reflexivity|]. split; [reflexivity|].
  exists (Store.new_row (store w) (punchInPayload env emp)). repeat split.
Qed.

Lemma punch_in_inserts_witness :
  signedIn (Day.env_at (Day.nine - 200)) = Some "emp1" /\
  insertFault (Day.env_at (Day.nine - 200)) = None /\
  existsb (Store.for_day "emp1" "2024-01-15") (store Day.fresh) = false /\
  toasts (exec (handlePunchIn (Day.env_at (Day.nine - 200))) Day.fresh) =
    [{| title := "Punched In";
        description := [Lit "Successfully punched in at "; HHmm (Day.nine + 200)];
        variant := None |}] /\
  exists row : AttendanceRecord,
    store (exec (handlePunchIn (Day.env_at (Day.nine - 200))) Day.fresh) = [row] /\
    punch_in_time row = Day.nine - 200 /\
    status row = Some "present" /\
    total_hours row = None /\
    punch_out_time row = None.
Proof.
  split; [reflexivity|]. split; [reflexivity|]. split; [reflexivity|].
  destruct (punch_in_inserts (Day.env_at (Day.nine - 200)) Day.fresh "emp1"
              eq_refl eq_refl eq_refl)
    as (_ & Htoast & row & Hstore & _ & _ & Hin & Hst & Hth & Hout).
  split; [rewrite Htoast; vm_compute; reflexivity|].
  exists row. repeat split; assumption.
Defined.

(* ================================================================== *)
(** ** Punch-out after punch-in *)

Lemma handlePunchOut_store (env : Env) (w : World) :
  store (exec (handlePunchOut env) w) = store w \/
  exists r, todayRecord w = Some r /\
            store (exec (handlePunchOut env) w)
              = updated (id r) (punchOutPatch (clock env) r) (store w).
Proof.
  destruct (signedIn env) as [emp|] eqn:Hemp, (todayRecord w) as [r|] eqn:Hrec.
  - unfold exec. rewrite (handlePunchOut_run env w emp r Hemp Hrec). cbn [snd].
    destruct (updateFault env); [left; reflexivity|].
    right. exists r. split; reflexivity.
  - left. unfold exec, handlePunchOut, bind, readTodayRecord. rewrite Hemp, Hrec. reflexivity.
  - left. unfold exec, handlePunchOut, bind, readTodayRecord. rewrite Hemp. reflexivity.
  - left. unfold exec, handlePunchOut, bind, readTodayRecord. rewrite Hemp. reflexivity.
Qed.

Lemma handlePunchIn_store (env : Env) (w : World) :
  store (exec (handlePunchIn env) w) = store w \/
  exists emp, store (exec (handlePunchIn env) w)
                = store w ++ [Store.new_row (store w) (punchInPayload env emp)].
Proof.
  destruct (signedIn env) as [emp|] eqn:Hemp.
  - unfold exec. rewrite (handlePunchIn_run env w emp Hemp). cbn [snd store].
    unfold Store.insert. destruct (insertFault env); [left; reflexivity|].
    destruct (existsb _ (store w)); [left; reflexivity|].
    right. exists emp. reflexivity.
  - left. unfold exec, handlePunchIn. rewrite Hemp. reflexivity.
Qed.

Lemma loadState_store (env : Env) (w : World) :
  store (exec (loadState env) w) = store w.
Proof.
  unfold exec, loadState. destruct (signedIn env) as [emp|]; [|reflexivity].
  rewrite fetchAttendance_run. cbn [snd]. cbv zeta.
  destruct (error _); [reflexivity|].
  destruct (error _); [reflexivity|].
  destruct (error _); reflexivity.
Qed.

(** C9, as stated, fails: a punch-out whose clock reads 08:59:30 closes
    the record that was opened at 09:00:00, and the stored punchOutTime
    is before punchInTime. *)
Lemma punch_out_before_punch_in :
  out_after_in (store Day.clocked_in) /\
  store (exec (handlePunchOut (Day.env_at (Day.nine - 30000))) Day.clocked_in) =
    [{| id := "0";
        employee_id := "emp1";
        attendance_date := "2024-01-15";
        punch_in_time := Day.nine;
        punch_out_time := Some (Day.nine - 30000);
        total_hours := Some (PrimFloat.opp (hundredths 1));
        status := Some "absent";
        notes := None |}] /\
  ~ out_after_in
      (store (exec (handlePunchOut (Day.env_at (Day.nine - 30000))) Day.clocked_in)).
Proof.
  split; [|split].
  - intros r t [<- | []] Hout. discriminate Hout.
  - vm_compute. reflexivity.
  - intros H.
    specialize (H (Store.apply_patch (punchOutPatch (Day.nine - 30000) Day.open_record)
                     Day.open_record)
                  (Day.nine - 30000)).
    cbn [punch_in_time punch_out_time Store.apply_patch upd_punch_out_time punchOutPatch
         Day.open_record] in H.
    assert (Hlt : Day.nine < Day.nine - 30000); [|lia].
    apply H; [|reflexivity]. vm_compute. left. reflexivity.
Qed.

(** C9, amended: punch-in adds a record with punchOutTime absent, a load
    writes nothing, and punch-out sets punchOutTime to the clock's
    reading without comparing it to punchInTime; so "punchOutTime, when
    present, is after punchInTime" carries over every operation provided
    the clock at punch-out reads later than the punchInTime of the record
    it closes. *)
Theorem out_after_in_preserved (env : Env) (w : World) :
  out_after_in (store w) ->
  out_after_in (store (exec (handlePunchIn env) w)) /\
  out_after_in (store (exec (loadState env) w)) /\
  ((forall r row, todayRecord w = Some r -> In row (store w) -> id row = id r ->
      punch_in_time row < clock env) ->
   out_after_in (store (exec (handlePunchOut env) w))).
Proof.
  intros Hinv. split; [|split].
  - destruct (handlePunchIn_store env w) as [-> | (emp & ->)]; [exact Hinv|].
    intros r t Hin Hout. apply in_app_or in Hin. destruct Hin as [Hin | [<- | []]].
    + exact (Hinv r t Hin Hout).
    + discriminate Hout.
  - rewrite loadState_store. exact Hinv.
  - intros Hclock.
    destruct (handlePunchOut_store env w) as [-> | (r & Hrec & ->)]; [exact Hinv|].
    intros row' t Hin Hout.
    destruct (updated_inv _ _ _ _ Hin) as [(row & Hrow & Hid & ->) | [Hrow _]].
    + cbn [Store.apply_patch punch_out_time punch_in_time punchOutPatch
           upd_punch_out_time] in Hout |- *.
      injection Hout as <-. exact (Hclock r row Hrec Hrow Hid).
    + exact (Hinv row' t Hrow Hout).
Qed.

Lemma out_after_in_preserved_witness :
  out_after_in (store Day.clocked_in) /\
  out_after_in
    (store (exec (handlePunchOut (Day.env_at (Day.nine + Day.hm 9 0))) Day.clocked_in)).
Proof.
  assert (Hinv : out_after_in (store Day.clocked_in)).
  { intros r t [<- | []] Hout. discriminate Hout. }
  split; [exact Hinv|].
  apply (proj2 (proj2 (out_after_in_preserved (Day.env_at (Day.nine + Day.hm 9 0))
                         Day.clocked_in Hinv))).
  intros r row _ [<- | []] _. vm_compute. reflexivity.
Defined.

(* ================================================================== *)
(** ** Loading *)

(** C4, as stated, fails: the history query fails after today's record
    was fetched; an error is reported, yet todayRecord has already been
    replaced by the fetched record. *)
Lemma failed_load_overwrites_today :
  todayRecord Day.just_punched_in = None /\
  toasts (exec (loadState (Day.history_down Day.nine)) Day.just_punched_in)
    = [loadErrorToast] /\
  todayRecord (exec (loadState (Day.history_down Day.nine)) Day.just_punched_in)
    = Some Day.open_record /\
  todayRecord (exec (loadState (Day.history_down Day.nine)) Day.just_punched_in)
    <> todayRecord Day.just_punched_in.
Proof.
  split; [reflexivity|]. split; [vm_compute; reflexivity|]. split; [vm_compute; reflexivity|].
  vm_compute. intros H. discriminate H.
Qed.

(** C4, amended: when one of the three queries of a load fails, one
    'Failed to load attendance data' toast is shown, loading ends, and
    the output of the failing query and of the queries after it keep
    their previous values; the outputs of the queries that succeeded
    before it have already been replaced by what they fetched
    (todayRecord when the history query fails, todayRecord and
    attendanceHistory when the monthly query fails). *)
Theorem load_failure_state (env : Env) (w : World) (emp : string) :
  signedIn env = Some emp ->
  let r1 := Store.select_today (todayFault env) emp (today env) (store w) in
  let r2 := Store.select_history (historyFault env) emp (thirtyDaysAgo env) (store w) in
  let r3 := Store.select_month (monthFault env) emp (monthStart env) (monthEnd env)
              (store w) in
  let w' := exec (loadState env) w in
  (error r1 <> None \/ error r2 <> None \/ error r3 <> None ->
     toasts w' = toasts w ++ [loadErrorToast] /\
     loading w' = false /\
     monthlyHours w' = monthlyHours w) /\
  (error r1 <> None ->
     todayRecord w' = todayRecord w /\
     attendanceHistory w' = attendanceHistory w) /\
  (error r1 = None -> error r2 <> None ->
     todayRecord w' = data r1 /\
     attendanceHistory w' = attendanceHistory w) /\
  (error r1 = None -> error r2 = None -> error r3 <> None ->
     todayRecord w' = data r1 /\
     attendanceHistory w' = or_empty (data r2)).
Proof.
  intros Hemp r1 r2 r3 w'.
  assert (Hw' : w' = snd (fetchAttendance env emp w)).
  { unfold w', exec, loadState. rewrite Hemp. reflexivity. }
  rewrite fetchAttendance_run in Hw'. cbn [snd] in Hw'. cbv zeta in Hw'.
  fold r1 r2 r3 in Hw'. rewrite Hw'.
  destruct (error r1) as [e1|], (error r2) as [e2|], (error r3) as [e3|];
    cbn [todayRecord attendanceHistory monthlyHours loading toasts];
    repeat split; try reflexivity; try congruence;
    intros; try congruence;
    repeat match goal with H : _ \/ _ |- _ => destruct H end; congruence.
Qed.

Lemma load_failure_state_witness :
  signedIn (Day.history_down Day.nine) = Some "emp1" /\
  todayRecord (exec (loadState (Day.history_down Day.nine)) Day.just_punched_in)
    = Some Day.open_record /\
  attendanceHistory (exec (loadState (Day.history_down Day.nine)) Day.just_punched_in)
    = attendanceHistory Day.just_punched_in.
Proof.
  split; [reflexivity|].
  apply (proj1 (proj2 (proj2 (load_failure_state (Day.history_down Day.nine)
                                Day.just_punched_in "emp1" eq_refl)))).
  - reflexivity.
  - vm_compute. discriminate.
Defined.

(** C5, as stated, fails: the same three January rows, yielded by the
    table in two different orders, load two different monthlyHours, shown
    as 24.3h and as 24.4h. *)
Lemma monthly_hours_depend_on_row_order :
  Permutation [Day.jan10; Day.jan11; Day.jan12] [Day.jan12; Day.jan11; Day.jan10] /\
  monthlyHours (exec (loadState (Day.env_at Day.nine))
                  (Day.table [Day.jan10; Day.jan11; Day.jan12]))
  <> monthlyHours (exec (loadState (Day.env_at Day.nine))
                     (Day.table [Day.jan12; Day.jan11; Day.jan10])) /\
  JS.toFixed 1 (monthlyHours (exec (loadState (Day.env_at Day.nine))
                                (Day.table [Day.jan10; Day.jan11; Day.jan12])))
    = JS.FDec false 243 1 /\
  JS.toFixed 1 (monthlyHours (exec (loadState (Day.env_at Day.nine))
                                (Day.table [Day.jan12; Day.jan11; Day.jan10])))
    = JS.FDec false 244 1.
Proof.
  split; [|split; [|split]].
  - apply perm_trans with [Day.jan11; Day.jan10; Day.jan12].
    + apply perm_swap.
    + apply perm_trans with [Day.jan11; Day.jan12; Day.jan10].
      * apply perm_skip. apply perm_swap.
      * apply perm_swap.
  - vm_compute. intros H. discriminate H.
  - vm_compute. reflexivity.
  - vm_compute. reflexivity.
Qed.

(** The month's rows of a reordered table are the month's rows, reordered. *)
Lemma month_rows_reordered (emp first last : string) (rows rows' : list AttendanceRecord) :
  Permutation rows rows' ->
  Permutation (filter (Store.in_month emp first last) rows)
              (filter (Store.in_month emp first last) rows').
Proof.
  intros Hperm. induction Hperm as [|r t t' _ IH|r1 r2 t|t1 t2 t3 _ IH12 _ IH23].
  - apply perm_nil.
  - cbn [filter]. destruct (Store.in_month emp first last r).
    + apply perm_skip, IH.
    + exact IH.
  - cbn [filter].
    destruct (Store.in_month emp first last r1), (Store.in_month emp first last r2);
      solve [apply perm_swap | apply Permutation_refl].
  - eapply perm_trans; eassumption.
Qed.

(** Up to two terms, the order of a left-to-right sum does not matter. *)
Lemma sum_up_to_two_rows (l l' : list AttendanceRecord) :
  Permutation l l' -> (List.length l <= 2)%nat ->
  fold_left (fun sum row => PrimFloat.add sum (JS.or_zero (total_hours row))) l 0%float
  = fold_left (fun sum row => PrimFloat.add sum (JS.or_zero (total_hours row))) l' 0%float.
Proof.
  intros Hperm Hlen. destruct l as [|a [|b [|c l]]].
  - apply Permutation_nil in Hperm. subst l'. reflexivity.
  - apply Permutation_length_1_inv in Hperm. subst l'. reflexivity.
  - apply Permutation_length_2_inv in Hperm. destruct Hperm as [-> | ->]; [reflexivity|].
    cbn [fold_left].
    rewrite !zero_add by apply or_zero_not_neg_zero. apply add_comm.
  - simpl in Hlen. lia.
Qed.

(** [total_hours || 0], written out. *)
Lemma or_zero_written_out (o : option float) :
  JS.or_zero o =
    match o with
    | Some x => if PrimFloat.eqb x 0 || negb (PrimFloat.eqb x x) then 0%float else x
    | None => 0%float
    end.
Proof.
  unfold JS.or_zero, JS.truthy_num, JS.is_nan. destruct o as [x|]; [|reflexivity].
  destruct (PrimFloat.eqb x 0 || negb (PrimFloat.eqb x x)); reflexivity.
Qed.

Lemma sum_written_out (l : list AttendanceRecord) (acc : float) :
  fold_left (fun sum row => PrimFloat.add sum (JS.or_zero (total_hours row))) l acc
  = fold_left
      (fun sum row =>
         PrimFloat.add sum
           match total_hours row with
           | Some x => if PrimFloat.eqb x 0 || negb (PrimFloat.eqb x x) then 0%float else x
           | None => 0%float
           end) l acc.
Proof.
  revert acc. induction l as [|x l IH]; intros acc; [reflexivity|].
  cbn [fold_left]. rewrite or_zero_written_out. apply IH.
Qed.

(** C5, amended: after a load whose queries all succeed, monthlyHours is
    the sum, added up from 0 in double precision in the order the table
    yields the rows, of totalHours (absent, zero or NaN counted as 0)
    over the employee's rows whose attendanceDate lies between the first
    and the last day of the current month; it is 0 when no matching row
    has a total. It does not depend on the order of the rows as long as
    the matching rows keep their relative order or number at most two;
    from three matching rows on, another order may round to another
    sum. *)
Theorem monthly_hours_sum (env : Env) (w : World) (emp : string) :
  signedIn env = Some emp ->
  error (Store.select_today (todayFault env) emp (today env) (store w)) = None ->
  historyFault env = None ->
  monthFault env = None ->
  let month := filter (Store.in_month emp (monthStart env) (monthEnd env)) in
  let counted := fun total : option float =>
                   match total with
                   | Some x =>
                       if PrimFloat.eqb x 0 || negb (PrimFloat.eqb x x) then 0%float else x
                   | None => 0%float
                   end in
  monthlyHours (exec (loadState env) w)
    = fold_left (fun sum row => PrimFloat.add sum (counted (total_hours row)))
                (month (store w)) 0%float /\
  monthlyHours (exec (loadState env) w)
    = fold_left (fun sum row => PrimFloat.add sum (JS.or_zero (total_hours row)))
                (month (store w)) 0%float /\
  ((forall row, In row (month (store w)) -> total_hours row = None) ->
   monthlyHours (exec (loadState env) w) = 0%float) /\
  (forall row, In row (month (store w)) <->
     In row (store w) /\ employee_id row = emp /\
     String.leb (monthStart env) (attendance_date row) = true /\
     String.leb (attendance_date row) (monthEnd env) = true) /\
  (forall w2 : World,
     error (Store.select_today (todayFault env) emp (today env) (store w2)) = None ->
     month (store w2) = month (store w) ->
     monthlyHours (exec (loadState env) w2) = monthlyHours (exec (loadState env) w)) /\
  (forall w2 : World,
     error (Store.select_today (todayFault env) emp (today env) (store w2)) = None ->
     Permutation (store w) (store w2) ->
     (List.length (month (store w)) <= 2)%nat ->
     monthlyHours (exec (loadState env) w2) = monthlyHours (exec (loadState env) w)).
Proof.
  intros Hemp H1 H2 H3 month counted.
  assert (Hload : forall v : World,
             error (Store.select_today (todayFault env) emp (today env) (store v)) = None ->
             monthlyHours (exec (loadState env) v)
             = fold_left (fun sum row => PrimFloat.add sum (JS.or_zero (total_hours row)))
                         (month (store v)) 0%float).
  { intros v Hv. unfold exec, loadState. rewrite Hemp, fetchAttendance_run.
    cbn [snd]. cbv zeta. rewrite Hv.
    unfold Store.select_history, Store.select_month. rewrite H2, H3.
    cbn [error data monthlyHours]. unfold sumTotalHours, or_empty.
    fold month. generalize 0%float. induction (month (store v)) as [|x l IH]; intros acc.
    - reflexivity.
    - cbn [map fold_left]. apply IH. }
  assert (Hexp : monthlyHours (exec (loadState env) w)
                 = fold_left (fun sum row => PrimFloat.add sum (counted (total_hours row)))
                             (month (store w)) 0%float).
  { rewrite (Hload w H1). apply sum_written_out. }
  split; [exact Hexp|]. split; [apply Hload; exact H1|]. split; [|split; [|split]].
  - rewrite Hexp. generalize (month (store w)) as l.
    induction l as [|x l IH]; intros Hnone; [reflexivity|].
    cbn [fold_left]. rewrite (Hnone x (or_introl eq_refl)).
    change (PrimFloat.add 0 (counted None)) with 0%float.
    apply IH. intros row Hrow. apply Hnone. right. exact Hrow.
  - intros row. unfold month. rewrite filter_In. unfold Store.in_month.
    rewrite !andb_true_iff, String.eqb_eq. tauto.
  - intros w2 Hw2 Hsame. rewrite (Hload w2 Hw2), (Hload w H1), Hsame. reflexivity.
  - intros w2 Hw2 Hperm Hlen. rewrite (Hload w2 Hw2), (Hload w H1). symmetry.
    apply sum_up_to_two_rows; [|exact Hlen].
    unfold month. apply month_rows_reordered. exact Hperm.
Qed.

Lemma monthly_hours_sum_witness :
  signedIn (Day.env_at Day.nine) = Some "emp1" /\
  total_hours Day.open_record = None /\
  monthlyHours (exec (loadState (Day.env_at Day.nine)) Cases.open_first)
    = PrimFloat.div 2435 100 /\
  monthlyHours (exec (loadState (Day.env_at Day.nine)) Day.clocked_in) = 0%float.
Proof.
  split; [reflexivity|]. split; [reflexivity|]. split.
  - rewrite (proj1 (monthly_hours_sum (Day.env_at Day.nine) Cases.open_first "emp1"
                      eq_refl eq_refl eq_refl eq_refl)).
    vm_compute. reflexivity.
  - apply (proj1 (proj2 (proj2 (monthly_hours_sum (Day.env_at Day.nine) Day.clocked_in
                                   "emp1" eq_refl eq_refl eq_refl eq_refl)))).
    intros row Hrow. vm_compute in Hrow. destruct Hrow as [<- | []]. reflexivity.
Defined.

(* ================================================================== *)
(** ** What is displayed *)

Lemma status_is_true (r : AttendanceRecord) (s : string) :
  status_is r s = true <-> status r = Some s.
Proof.
  unfold status_is. destruct (status r) as [x|].
  - rewrite String.eqb_eq. split; congruence.
  - split; discriminate.
Qed.

Lemma status_is_false (r : AttendanceRecord) (s : string) :
  status r <> Some s -> status_is r s = false.
Proof.
  intros H. destruct (status_is r s) eqn:E; [|reflexivity].
  apply status_is_true in E. contradiction.
Qed.

(** C7: the status displayed for today is 'absent' when no record is
    loaded; otherwise the stored status when that is 'present' or
    'partial'; otherwise 'present' when the record has its punchInTime
    and no punchOutTime; otherwise 'absent'. *)
Theorem getStatus_derivation (w : World) :
  (todayRecord w = None -> getStatus w = absent) /\
  (forall r, todayRecord w = Some r ->
     (status r = Some "present" -> getStatus w = present) /\
     (status r = Some "partial" -> getStatus w = partial) /\
     (status r <> Some "present" -> status r <> Some "partial" ->
      punch_out_time r = None -> getStatus w = present) /\
     (status r <> Some "present" -> status r <> Some "partial" ->
      punch_out_time r <> None -> getStatus w = absent)).
Proof.
  unfold getStatus. split.
  - intros ->. reflexivity.
  - intros r ->. repeat split.
    + intros H. apply status_is_true in H. rewrite H. reflexivity.
    + intros H. assert (Hp : status_is r "present" = false).
      { apply status_is_false. rewrite H. discriminate. }
      apply status_is_true in H. rewrite Hp, H. reflexivity.
    + intros H1 H2 Hout.
      rewrite (status_is_false _ _ H1), (status_is_false _ _ H2), Hout. reflexivity.
    + intros H1 H2 Hout.
      rewrite (status_is_false _ _ H1), (status_is_false _ _ H2).
      destruct (punch_out_time r); [reflexivity | contradiction].
Qed.

Lemma present_partial_le_history (l : list AttendanceRecord) :
  (List.length (filter (fun r => status_is r "present") l)
   + List.length (filter (fun r => status_is r "partial") l) <= List.length l)%nat.
Proof.
  induction l as [|x l IH]; simpl; [lia|].
  destruct (status_is x "present") eqn:Hp, (status_is x "partial") eqn:Hq; simpl; try lia.
  apply status_is_true in Hp. apply status_is_true in Hq. congruence.
Qed.

(** The numbers 1, 2, ..., 1000 are not zero. *)
Lemma small_counts_nonzero (d : nat) :
  (1 <= d <= 1000)%nat -> PrimFloat.eqb (JS.Z2float (Z.of_nat d)) 0 = false.
Proof.
  intros Hd.
  assert (Hall : forallb (fun d => negb (PrimFloat.eqb (JS.Z2float (Z.of_nat d)) 0))
                   (seq 1 1000) = true) by (vm_compute; reflexivity).
  rewrite forallb_forall in Hall. specialize (Hall d).
  rewrite in_seq in Hall. apply negb_true_iff. apply Hall. lia.
Qed.

(** C10: the 'Avg Hours/Day' card divides monthlyHours by
    max(presentDays + partialDays, 1), a count that is at least 1 and so
    never zero, whatever state is loaded (as a number, too, for a history
    of up to 1000 rows); with an empty 30-day history it shows '--' and
    no quotient. *)
Theorem avg_hours_per_day (w : World) :
  (1 <= avgDenominator w)%nat /\
  avgDenominator w <> 0%nat /\
  (presentDays w + partialDays w = 0 -> avgDenominator w = 1)%nat /\
  (0 < presentDays w + partialDays w ->
   avgDenominator w = presentDays w + partialDays w)%nat /\
  ((List.length (attendanceHistory w) <= 1000)%nat ->
   PrimFloat.eqb (JS.Z2float (Z.of_nat (avgDenominator w))) 0 = false) /\
  (attendanceHistory w = [] -> avgHoursPerDay w = [Lit "--"]) /\
  (attendanceHistory w <> [] ->
   avgHoursPerDay w =
     [Num (JS.toFixed 1 (PrimFloat.div (monthlyHours w)
                           (JS.Z2float (Z.of_nat (avgDenominator w)))));
      Lit "h"]).
Proof.
  pose proof (present_partial_le_history (attendanceHistory w)) as Hle.
  fold (presentDays w) (partialDays w) in Hle.
  unfold avgDenominator, JS.Math_max. repeat split; try lia.
  - intros Hlen. apply small_counts_nonzero. lia.
  - intros H. unfold avgHoursPerDay. rewrite H. reflexivity.
  - intros H. unfold avgHoursPerDay, avgDenominator, JS.Math_max.
    destruct (attendanceHistory w) as [|x l]; [contradiction | reflexivity].
Qed.

(** A day with one open record: one present day, denominator 1. *)
Example avg_on_first_day :
  avgDenominator Day.clocked_in = 1%nat /\
  avgHoursPerDay Day.clocked_in = [Num (JS.FDec false 0 1); Lit "h"] /\
  avgHoursPerDay Day.fresh = [Lit "--"].
Proof. repeat split; vm_compute; reflexivity. Qed.

(* ================================================================== *)
(** ** Guards, flags and traffic of the handlers *)

Lemma signedIn_none (env : Env) :
  employee env = None \/ employee env = Some "" -> signedIn env = None.
Proof. unfold signedIn. intros [-> | ->]; reflexivity. Qed.

(** X1: with nobody signed in ([employee?.id] missing or empty) the load
    effect and both punch handlers return at once: no request, no toast,
    no flag touched. *)
Theorem signed_out_nothing_happens (env : Env) (w : World) :
  employee env = None \/ employee env = Some "" ->
  loadState env w = (Done tt, w) /\
  handlePunchIn env w = (Done tt, w) /\
  handlePunchOut env w = (Done tt, w).
Proof.
  intros H. apply signedIn_none in H.
  unfold loadState, handlePunchIn, handlePunchOut, bind, readTodayRecord.
  rewrite H. repeat split.
Qed.

Lemma signed_out_nothing_happens_witness :
  employee Cases.signed_out = None /\
  handlePunchIn Cases.signed_out Day.fresh = (Done tt, Day.fresh) /\
  handlePunchOut Cases.signed_out Day.clocked_in = (Done tt, Day.clocked_in).
Proof.
  split; [reflexivity|]. split.
  - apply (signed_out_nothing_happens Cases.signed_out Day.fresh). left. reflexivity.
  - apply (signed_out_nothing_happens Cases.signed_out Day.clocked_in). left. reflexivity.
Defined.

(** X2: a punch handler that gets past its guard lets no exception
    escape, ends with punching false, sends exactly one write, shows
    exactly one toast, and never touches todayRecord, attendanceHistory,
    monthlyHours or loading: what the page shows changes only with the
    next load. *)
Theorem punch_handlers_settle (env : Env) (w : World) (emp : string) :
  signedIn env = Some emp ->
  (let w' := exec (handlePunchIn env) w in
   outcome (handlePunchIn env) w = Done tt /\
   punching w' = false /\
   (exists p, requests w' = requests w ++ [ReqInsert p]) /\
   (exists t, toasts w' = toasts w ++ [t]) /\
   todayRecord w' = todayRecord w /\
   attendanceHistory w' = attendanceHistory w /\
   monthlyHours w' = monthlyHours w /\
   loading w' = loading w) /\
  (forall r, todayRecord w = Some r ->
   let w' := exec (handlePunchOut env) w in
   outcome (handlePunchOut env) w = Done tt /\
   punching w' = false /\
   (exists p, requests w' = requests w ++ [ReqUpdate (id r) p]) /\
   (exists t, toasts w' = toasts w ++ [t]) /\
   todayRecord w' = todayRecord w /\
   attendanceHistory w' = attendanceHistory w /\
   monthlyHours w' = monthlyHours w /\
   loading w' = loading w).
Proof.
  intros Hemp. split.
  - cbv zeta. unfold exec, outcome. rewrite (handlePunchIn_run env w emp Hemp).
    cbn [fst snd]. cbv zeta. fields. repeat split; eauto.
  - intros r Hrec. cbv zeta. unfold exec, outcome.
    rewrite (handlePunchOut_run env w emp r Hemp Hrec). cbn [fst snd].
    destruct (updateFault env); fields; repeat split; eauto.
Qed.

Lemma punch_handlers_settle_witness :
  signedIn (Day.env_at (Day.nine + Day.hm 9 0)) = Some "emp1" /\
  todayRecord Cases.busy = Some Day.open_record /\
  punching Cases.busy = true /\
  punching (exec (handlePunchOut (Day.env_at (Day.nine + Day.hm 9 0))) Cases.busy) = false.
Proof.
  split; [reflexivity|]. split; [reflexivity|]. split; [reflexivity|].
  apply (proj2 (punch_handlers_settle (Day.env_at (Day.nine + Day.hm 9 0)) Cases.busy
                  "emp1" eq_refl) Day.open_record eq_refl).
Defined.

(** X3: a load lets no exception escape, ends with loading false, never
    writes to the table and leaves punching alone. It sends the three
    selects in order and stops at the first one that fails: the queries
    after a failed one are not sent. It shows no toast when all three
    succeed. *)
Theorem load_settles (env : Env) (w : World) (emp : string) :
  signedIn env = Some emp ->
  let r1 := Store.select_today (todayFault env) emp (today env) (store w) in
  let r2 := Store.select_history (historyFault env) emp (thirtyDaysAgo env) (store w) in
  let r3 := Store.select_month (monthFault env) emp (monthStart env) (monthEnd env)
              (store w) in
  let q1 := ReqSelectToday emp (today env) in
  let q2 := ReqSelectHistory emp (thirtyDaysAgo env) in
  let q3 := ReqSelectMonth emp (monthStart env) (monthEnd env) in
  let w' := exec (loadState env) w in
  outcome (loadState env) w = Done tt /\
  loading w' = false /\
  store w' = store w /\
  punching w' = punching w /\
  (exists qs, requests w' = requests w ++ qs /\ forallb is_read qs = true) /\
  (error r1 <> None -> requests w' = requests w ++ [q1]) /\
  (error r1 = None -> error r2 <> None -> requests w' = requests w ++ [q1; q2]) /\
  (error r1 = None -> error r2 = None -> requests w' = requests w ++ [q1; q2; q3]) /\
  (error r1 = None -> error r2 = None -> error r3 = None -> toasts w' = toasts w).
Proof.
  intros Hemp r1 r2 r3 q1 q2 q3 w'.
  assert (Hrun : loadState env w = fetchAttendance env emp w)
    by (unfold loadState; rewrite Hemp; reflexivity).
  unfold w', exec, outcome. rewrite Hrun, fetchAttendance_run. cbn [fst snd]. cbv zeta.
  fold r1 r2 r3 q1 q2 q3.
  destruct (error r1) as [e1|], (error r2) as [e2|], (error r3) as [e3|]; fields;
    rewrite <- ?app_assoc; cbn [app];
    repeat split; try congruence;
    solve [ eexists; split; [reflexivity | reflexivity] ].
Qed.

Lemma load_settles_witness :
  signedIn (Day.history_down Day.nine) = Some "emp1" /\
  requests (exec (loadState (Day.history_down Day.nine)) Day.just_punched_in)
    = [ReqSelectToday "emp1" "2024-01-15"; ReqSelectHistory "emp1" "2023-12-16"].
Proof.
  split; [reflexivity|].
  destruct (load_settles (Day.history_down Day.nine) Day.just_punched_in "emp1" eq_refl)
    as (_ & _ & _ & _ & _ & _ & Hstop & _).
  apply Hstop; [reflexivity | vm_compute; discriminate].
Defined.

(** X4: while the page is loading it shows only the spinner, so there is
    no button and a click does nothing. Once loaded, the Punch In button
    does something only when no record is loaded and no punch is in
    flight, the Punch Out button only when an open record is loaded and
    no punch is in flight; otherwise a click changes nothing. An enabled
    button runs its handler. *)
Theorem buttons_gate (env : Env) (w : World) :
  (loading w = true ->
   clickPunchIn env w = (Done tt, w) /\ clickPunchOut env w = (Done tt, w)) /\
  (todayRecord w <> None \/ punching w = true -> clickPunchIn env w = (Done tt, w)) /\
  (punching w = true -> clickPunchOut env w = (Done tt, w)) /\
  (loading w = false -> todayRecord w = None -> punching w = false ->
   clickPunchIn env w = handlePunchIn env w) /\
  (forall r, loading w = false -> todayRecord w = Some r -> punch_out_time r = None ->
   punching w = false ->
   clickPunchOut env w = handlePunchOut env w).
Proof.
  unfold clickPunchIn, clickPunchOut, punchInDisabled, punchOutDisabled, isPunchedIn.
  split; [|split; [|split; [|split]]].
  - intros ->. split; reflexivity.
  - intros [H | H]; destruct (loading w); try reflexivity.
    + destruct (todayRecord w); [reflexivity | contradiction].
    + rewrite H, orb_true_r. reflexivity.
  - intros H. rewrite H, orb_true_r. destruct (loading w); reflexivity.
  - intros H0 H1 H2. rewrite H0, H1, H2. reflexivity.
  - intros r H0 H1 H2 H3. rewrite H0, H1, H2, H3. reflexivity.
Qed.

Lemma buttons_gate_witness :
  punching Cases.busy = true /\
  clickPunchOut (Day.env_at (Day.nine + Day.hm 9 0)) Cases.busy = (Done tt, Cases.busy) /\
  clickPunchIn (Day.env_at (Day.nine + Day.hm 9 0)) Day.clocked_in
    = (Done tt, Day.clocked_in).
Proof.
  split; [reflexivity|]. split.
  - apply (proj1 (proj2 (proj2 (buttons_gate (Day.env_at (Day.nine + Day.hm 9 0))
                                  Cases.busy)))).
    reflexivity.
  - apply (proj1 (proj2 (buttons_gate (Day.env_at (Day.nine + Day.hm 9 0))
                           Day.clocked_in))).
    left. discriminate.
Defined.

(** X5: a punch-out whose update the store refuses stores nothing and
    shows one 'Error' toast with the store's message, or with 'Failed to
    punch out' when the message is empty. *)
Theorem punch_out_refused (env : Env) (w : World) (emp : string)
    (r : AttendanceRecord) (e : StoreError) :
  signedIn env = Some emp ->
  todayRecord w = Some r ->
  updateFault env = Some e ->
  let w' := exec (handlePunchOut env) w in
  store w' = store w /\
  toasts w' = toasts w ++ [{| title := "Error";
                              description :=
                                [Lit (if String.eqb (message e) ""
                                      then "Failed to punch out" else message e)];
                              variant := Some "destructive" |}].
Proof.
  intros Hemp Hrec Hfault. cbv zeta. unfold exec.
  rewrite (handlePunchOut_run env w emp r Hemp Hrec), Hfault. cbn [snd]. fields.
  split; [reflexivity|].
  unfold errorToast, JS.or_str, JS.truthy_str, destructive.
  destruct (String.eqb (message e) ""); reflexivity.
Qed.

Lemma punch_out_refused_witness :
  signedIn (Cases.update_down (Day.nine + Day.hm 9 0)) = Some "emp1" /\
  store (exec (handlePunchOut (Cases.update_down (Day.nine + Day.hm 9 0))) Day.clocked_in)
    = [Day.open_record] /\
  toasts (exec (handlePunchOut (Cases.update_down (Day.nine + Day.hm 9 0))) Day.clocked_in)
    = [{| title := "Error";
          description := [Lit "Failed to punch out"];
          variant := Some "destructive" |}].
Proof.
  split; [reflexivity|].
  apply (punch_out_refused (Cases.update_down (Day.nine + Day.hm 9 0)) Day.clocked_in
           "emp1" Day.open_record (mkError "42501" "") eq_refl eq_refl eq_refl).
Defined.

(* ================================================================== *)
(** ** The day as a whole: punch, reload, punch, reload *)

Lemma filter_none {A : Type} (f : A -> bool) (l : list A) :
  existsb f l = false -> filter f l = [].
Proof.
  induction l as [|x l IH]; simpl; [reflexivity|].
  destruct (f x); simpl; [discriminate | exact IH].
Qed.

(** The day's rows of an updated table are the day's rows, updated. *)
Lemma updated_for_day (emp date target : string) (p : UpdatePatch)
    (rows : list AttendanceRecord) :
  filter (Store.for_day emp date) (updated target p rows)
  = updated target p (filter (Store.for_day emp date) rows).
Proof.
  unfold updated. induction rows as [|x rows IH]; [reflexivity|].
  cbn [map filter].
  assert (Hx : Store.for_day emp date
                 (if String.eqb (id x) target then Store.apply_patch p x else x)
               = Store.for_day emp date x)
    by (destruct (String.eqb (id x) target); reflexivity).
  rewrite Hx. destruct (Store.for_day emp date x); cbn [map]; rewrite IH; reflexivity.
Qed.

(** Two updates of the same record: the later one decides. *)
Lemma updated_twice (target : string) (p1 p2 : UpdatePatch) (rows : list AttendanceRecord) :
  updated target p2 (updated target p1 rows) = updated target p2 rows.
Proof.
  unfold updated. rewrite map_map. apply map_ext. intros x.
  destruct (String.eqb (id x) target) eqn:E.
  - cbn [Store.apply_patch id]. rewrite E. reflexivity.
  - rewrite E. reflexivity.
Qed.

Lemma load_today (env : Env) (w : World) (emp : string) (found : option AttendanceRecord) :
  signedIn env = Some emp ->
  todayFault env = None -> historyFault env = None -> monthFault env = None ->
  Store.select_today None emp (today env) (store w) = mkResponse found None ->
  todayRecord (exec (loadState env) w) = found /\
  punching (exec (loadState env) w) = punching w.
Proof.
  intros Hemp H1 H2 H3 Hsel. unfold exec, loadState. rewrite Hemp, fetchAttendance_run.
  cbn [snd]. cbv zeta. rewrite H1, H2, H3, Hsel. cbn [error data].
  unfold Store.select_history, Store.select_month. cbn [error data]. fields.
  split; reflexivity.
Qed.

(** X6: punch-in, then the reload the change feed triggers. With no row
    yet for (employee, today) and a store that answers, the loaded
    record for today is the new one - punched in now, not punched out,
    status 'present' - the badge shows 'present', Punch In is disabled
    and Punch Out is enabled. *)
Theorem punch_in_then_reload (env : Env) (w : World) (emp : string) :
  signedIn env = Some emp ->
  healthy env ->
  existsb (Store.for_day emp (today env)) (store w) = false ->
  let w' := exec (andThen (handlePunchIn env) (loadState env)) w in
  (exists row,
      todayRecord w' = Some row /\
      In row (store w') /\
      employee_id row = emp /\
      attendance_date row = today env /\
      punch_in_time row = clock env /\
      punch_out_time row = None /\
      status row = Some "present") /\
  getStatus w' = present /\
  isPunchedIn w' = true /\
  hasPunchedOut w' = false /\
  punchInDisabled w' = true /\
  punchOutDisabled w' = false.
Proof.
  intros Hemp (H1 & H2 & H3 & H4 & _) Hnew w'.
  set (w1 := exec (handlePunchIn env) w).
  set (row := Store.new_row (store w) (punchInPayload env emp)).
  assert (Hstore : store w1 = store w ++ [row]).
  { unfold w1, exec. rewrite (handlePunchIn_run env w emp Hemp). cbn [snd]. cbv zeta. fields.
    rewrite H4, (insert_accepted (punchInPayload env emp) (store w) Hnew). reflexivity. }
  assert (Hpunch : punching w1 = false).
  { unfold w1, exec. rewrite (handlePunchIn_run env w emp Hemp). reflexivity. }
  assert (Hsel : Store.select_today None emp (today env) (store w1)
                 = mkResponse (Some row) None).
  { unfold Store.select_today. rewrite Hstore, filter_app, (filter_none _ _ Hnew).
    cbn [filter app]. unfold Store.for_day, row, Store.new_row, punchInPayload.
    cbn [employee_id attendance_date ins_employee_id ins_attendance_date].
    rewrite !String.eqb_refl. reflexivity. }
  destruct (load_today env w1 emp (Some row) Hemp H1 H2 H3 Hsel) as [Htoday Hp].
  assert (Hst : store w' = store w1) by apply loadState_store.
  change w' with (exec (loadState env) w1).
  unfold getStatus, isPunchedIn, hasPunchedOut, punchInDisabled, punchOutDisabled, isPunchedIn.
  rewrite Htoday, Hp, Hpunch.
  split; [|repeat split].
  exists row. split; [reflexivity|]. split.
  - change (exec (loadState env) w1) with w'. rewrite Hst, Hstore.
    apply in_or_app. right. left. reflexivity.
  - repeat split.
Qed.

Lemma punch_in_then_reload_witness :
  signedIn (Day.env_at Day.nine) = Some "emp1" /\
  healthy (Day.env_at Day.nine) /\
  existsb (Store.for_day "emp1" "2024-01-15") (store Day.fresh) = false /\
  getStatus (exec (andThen (handlePunchIn (Day.env_at Day.nine))
                           (loadState (Day.env_at Day.nine))) Day.fresh) = present /\
  punchOutDisabled (exec (andThen (handlePunchIn (Day.env_at Day.nine))
                                  (loadState (Day.env_at Day.nine))) Day.fresh) = false.
Proof.
  assert (Hh : healthy (Day.env_at Day.nine)) by (repeat split).
  split; [reflexivity|]. split; [exact Hh|]. split; [reflexivity|].
  destruct (punch_in_then_reload (Day.env_at Day.nine) Day.fresh "emp1" eq_refl Hh eq_refl)
    as (_ & Hs & _ & _ & _ & Hout).
  split; assumption.
Defined.

Lemma getStatus_closed (w : World) (p : UpdatePatch) (r : AttendanceRecord) (h : float) :
  todayRecord w = Some (Store.apply_patch p r) ->
  upd_status p = statusFor h ->
  getStatus w = displayOf (statusFor h).
Proof.
  intros Hrec Hst. unfold getStatus, status_is. rewrite Hrec.
  cbn [Store.apply_patch status punch_out_time punch_in_time]. rewrite Hst.
  unfold statusFor, displayOf.
  destruct (PrimFloat.leb 8 h); [reflexivity|].
  destruct (PrimFloat.leb 4 h); reflexivity.
Qed.

(** X7: punch-out, then the reload. When the table holds exactly the
    loaded record for (employee, today) and the store answers, the
    reloaded record carries the punch-out instant, the badge shows the
    status the punch-out computed ('absent' below four hours, never the
    clocked-in fallback), and both buttons are disabled: any further
    click that day changes nothing. *)
Theorem punch_out_then_reload (env : Env) (w : World) (emp : string) (r : AttendanceRecord) :
  signedIn env = Some emp ->
  healthy env ->
  todayRecord w = Some r ->
  filter (Store.for_day emp (today env)) (store w) = [r] ->
  let w' := exec (andThen (handlePunchOut env) (loadState env)) w in
  todayRecord w' = Some (Store.apply_patch (punchOutPatch (clock env) r) r) /\
  In (Store.apply_patch (punchOutPatch (clock env) r) r) (store w') /\
  getStatus w' = displayOf (statusFor (hoursWorked (clock env) r)) /\
  hasPunchedOut w' = true /\
  isPunchedIn w' = false /\
  (forall env2, clickPunchIn env2 w' = (Done tt, w') /\
                clickPunchOut env2 w' = (Done tt, w')).
Proof.
  intros Hemp (H1 & H2 & H3 & _ & H5) Hrec Hday w'.
  set (p := punchOutPatch (clock env) r).
  set (w1 := exec (handlePunchOut env) w).
  assert (Hstore : store w1 = updated (id r) p (store w)).
  { unfold w1, exec. rewrite (handlePunchOut_run env w emp r Hemp Hrec), H5. reflexivity. }
  assert (Hsel : Store.select_today None emp (today env) (store w1)
                 = mkResponse (Some (Store.apply_patch p r)) None).
  { unfold Store.select_today. rewrite Hstore, updated_for_day, Hday.
    unfold updated. cbn [map]. rewrite String.eqb_refl. reflexivity. }
  destruct (load_today env w1 emp _ Hemp H1 H2 H3 Hsel) as [Htoday _].
  change w' with (exec (loadState env) w1).
  assert (Hin : In (Store.apply_patch p r) (store (exec (loadState env) w1))).
  { rewrite loadState_store, Hstore. apply updated_hit; [|reflexivity].
    assert (Hr : In r (filter (Store.for_day emp (today env)) (store w)))
      by (rewrite Hday; left; reflexivity).
    apply filter_In in Hr. exact (proj1 Hr). }
  split; [exact Htoday|]. split; [exact Hin|]. split.
  - apply (getStatus_closed _ p r); [exact Htoday | reflexivity].
  - unfold hasPunchedOut, isPunchedIn, clickPunchIn, clickPunchOut,
      punchInDisabled, punchOutDisabled, isPunchedIn.
    rewrite Htoday. cbn [Store.apply_patch punch_out_time JS.truthy_opt negb orb].
    repeat split; destruct (loading (exec (loadState env) w1)); reflexivity.
Qed.

Lemma punch_out_then_reload_witness :
  signedIn (Day.env_at (Day.nine + Day.hm 3 0)) = Some "emp1" /\
  todayRecord Day.clocked_in = Some Day.open_record /\
  getStatus Day.clocked_in = present /\
  getStatus (exec (andThen (handlePunchOut (Day.env_at (Day.nine + Day.hm 3 0)))
                           (loadState (Day.env_at (Day.nine + Day.hm 3 0))))
               Day.clocked_in) = absent.
Proof.
  assert (Hh : healthy (Day.env_at (Day.nine + Day.hm 3 0))) by (repeat split).
  split; [reflexivity|]. split; [reflexivity|]. split; [reflexivity|].
  destruct (punch_out_then_reload (Day.env_at (Day.nine + Day.hm 3 0)) Day.clocked_in
              "emp1" Day.open_record eq_refl Hh eq_refl eq_refl)
    as (_ & _ & Hs & _).
  rewrite Hs. vm_compute. reflexivity.
Defined.

(** X8: a punch-out does not update what the page holds, so on a page
    that is rendered (not loading), until a reload starts, the open
    record stays loaded and Punch Out is enabled again. A second
    punch-out then overwrites the first: the table ends as if only the
    second had happened. *)
Theorem second_punch_out_overwrites
    (env1 env2 : Env) (w : World) (emp1 emp2 : string) (r : AttendanceRecord) :
  signedIn env1 = Some emp1 ->
  signedIn env2 = Some emp2 ->
  updateFault env1 = None ->
  updateFault env2 = None ->
  todayRecord w = Some r ->
  punch_out_time r = None ->
  loading w = false ->
  let w1 := exec (handlePunchOut env1) w in
  todayRecord w1 = Some r /\
  loading w1 = false /\
  punchOutDisabled w1 = false /\
  clickPunchOut env2 w1 = handlePunchOut env2 w1 /\
  store (exec (handlePunchOut env2) w1) = store (exec (handlePunchOut env2) w) /\
  (forall row, In row (store (exec (handlePunchOut env2) w1)) -> id row = id r ->
     punch_out_time row = Some (clock env2)).
Proof.
  intros He1 He2 Hf1 Hf2 Hrec Hopen Hload w1.
  assert (Hw1 : w1 = snd (handlePunchOut env1 w)) by reflexivity.
  rewrite (handlePunchOut_run env1 w emp1 r He1 Hrec), Hf1 in Hw1. cbn [snd] in Hw1.
  assert (Hrec1 : todayRecord w1 = Some r) by (rewrite Hw1; exact Hrec).
  assert (Hp1 : punching w1 = false) by (rewrite Hw1; reflexivity).
  assert (Hs1 : store w1 = updated (id r) (punchOutPatch (clock env1) r) (store w))
    by (rewrite Hw1; reflexivity).
  assert (Hfin : store (exec (handlePunchOut env2) w1)
                 = updated (id r) (punchOutPatch (clock env2) r) (store w)).
  { unfold exec. rewrite (handlePunchOut_run env2 w1 emp2 r He2 Hrec1), Hf2. cbn [snd store].
    rewrite Hs1. apply updated_twice. }
  assert (Hl1 : loading w1 = false) by (rewrite Hw1; exact Hload).
  split; [exact Hrec1|]. split; [exact Hl1|]. split; [|split; [|split]].
  - unfold punchOutDisabled, isPunchedIn. rewrite Hrec1, Hopen, Hp1. reflexivity.
  - unfold clickPunchOut, punchOutDisabled, isPunchedIn. rewrite Hl1, Hrec1, Hopen, Hp1.
    reflexivity.
  - rewrite Hfin. unfold exec.
    rewrite (handlePunchOut_run env2 w emp2 r He2 Hrec), Hf2. reflexivity.
  - intros row Hin Hid. rewrite Hfin in Hin.
    destruct (updated_target _ _ _ _ Hin Hid) as (row0 & _ & _ & ->). reflexivity.
Qed.

Lemma second_punch_out_overwrites_witness :
  signedIn (Day.env_at (Day.nine + Day.hm 9 0)) = Some "emp1" /\
  todayRecord Day.clocked_in = Some Day.open_record /\
  store (exec (handlePunchOut (Day.env_at (Day.nine + Day.hm 10 0)))
           (exec (handlePunchOut (Day.env_at (Day.nine + Day.hm 9 0))) Day.clocked_in))
  = store (exec (handlePunchOut (Day.env_at (Day.nine + Day.hm 10 0))) Day.clocked_in).
Proof.
  split; [reflexivity|]. split; [reflexivity|].
  apply (second_punch_out_overwrites
           (Day.env_at (Day.nine + Day.hm 9 0)) (Day.env_at (Day.nine + Day.hm 10 0))
           Day.clocked_in "emp1" "emp1" Day.open_record
           eq_refl eq_refl eq_refl eq_refl eq_refl eq_refl eq_refl).
Defined.

(* ================================================================== *)
(** ** The history and the figures drawn from it *)

Lemma insert_desc_perm (r : AttendanceRecord) (l : list AttendanceRecord) :
  Permutation (Store.insert_desc r l) (r :: l).
Proof.
  induction l as [|x l IH]; cbn [Store.insert_desc]; [apply Permutation_refl|].
  destruct (String.leb (attendance_date x) (attendance_date r)).
  - apply Permutation_refl.
  - apply perm_trans with (x :: r :: l); [apply perm_skip, IH | apply perm_swap].
Qed.

Lemma order_desc_perm (l : list AttendanceRecord) : Permutation (Store.order_desc l) l.
Proof.
  unfold Store.order_desc. induction l as [|x l IH]; cbn [fold_right]; [apply perm_nil|].
  apply perm_trans with (x :: fold_right Store.insert_desc [] l).
  - apply insert_desc_perm.
  - apply perm_skip, IH.
Qed.

Lemma insert_desc_sorted (r : AttendanceRecord) (l : list AttendanceRecord) :
  Sorted newer_first l -> Sorted newer_first (Store.insert_desc r l).
Proof.
  induction l as [|x l IH]; cbn [Store.insert_desc]; intros Hs.
  - repeat constructor.
  - destruct (String.leb (attendance_date x) (attendance_date r)) eqn:E.
    + constructor; [exact Hs|]. constructor. exact E.
    + inversion Hs as [|? ? Hs' Hhd]; subst. constructor; [apply IH; exact Hs'|].
      assert (Hxr : newer_first x r).
      { unfold newer_first.
        destruct (String.leb_total (attendance_date x) (attendance_date r)) as [H|H];
          [congruence | exact H]. }
      destruct l as [|y l]; cbn [Store.insert_desc].
      * constructor. exact Hxr.
      * destruct (String.leb (attendance_date y) (attendance_date r)).
        -- constructor. exact Hxr.
        -- inversion Hhd; subst. constructor. assumption.
Qed.

Lemma order_desc_sorted (l : list AttendanceRecord) : Sorted newer_first (Store.order_desc l).
Proof.
  unfold Store.order_desc. induction l as [|x l IH]; cbn [fold_right].
  - constructor.
  - apply insert_desc_sorted, IH.
Qed.

(** X9: once the first two queries of a load succeed, attendanceHistory
    holds exactly the employee's rows dated on or after thirtyDaysAgo -
    each as often as the table has it, rows of other employees and older
    rows never - with the newest date first. *)
Theorem history_after_load (env : Env) (w : World) (emp : string) :
  signedIn env = Some emp ->
  error (Store.select_today (todayFault env) emp (today env) (store w)) = None ->
  historyFault env = None ->
  let history := attendanceHistory (exec (loadState env) w) in
  Sorted newer_first history /\
  Permutation history (filter (in_window emp (thirtyDaysAgo env)) (store w)) /\
  (forall row, In row history <->
     In row (store w) /\ employee_id row = emp /\
     String.leb (thirtyDaysAgo env) (attendance_date row) = true).
Proof.
  intros Hemp H1 H2 history.
  assert (Hh : history = Store.order_desc (filter (in_window emp (thirtyDaysAgo env)) (store w))).
  { unfold history, exec, loadState. rewrite Hemp, fetchAttendance_run. cbn [snd]. cbv zeta.
    rewrite H1. unfold Store.select_history. rewrite H2. cbn [error data or_empty].
    destruct (error (Store.select_month (monthFault env) emp (monthStart env) (monthEnd env)
                       (store w))); reflexivity. }
  rewrite Hh. split; [apply order_desc_sorted|]. split; [apply order_desc_perm|].
  intros row. split.
  - intros Hin. apply (Permutation_in _ (order_desc_perm _)) in Hin.
    apply filter_In in Hin. destruct Hin as [Hin Hw]. unfold in_window in Hw.
    apply andb_true_iff in Hw. destruct Hw as [He Hd]. apply String.eqb_eq in He. auto.
  - intros (Hin & He & Hd).
    apply (Permutation_in _ (Permutation_sym (order_desc_perm _))).
    apply filter_In. split; [exact Hin|]. unfold in_window.
    rewrite He, String.eqb_refl, Hd. reflexivity.
Qed.

Lemma history_after_load_witness :
  signedIn (Day.env_at Day.nine) = Some "emp1" /\
  attendanceHistory (exec (loadState (Day.env_at Day.nine)) Cases.january)
    = [Day.open_record; Day.jan12; Day.jan11; Day.jan10] /\
  Sorted newer_first (attendanceHistory (exec (loadState (Day.env_at Day.nine)) Cases.january)).
Proof.
  split; [reflexivity|]. split; [vm_compute; reflexivity|].
  exact (proj1 (history_after_load (Day.env_at Day.nine) Cases.january "emp1"
                  eq_refl eq_refl eq_refl)).
Defined.

(** X10: the two day counters count disjoint rows of the history: a row
    is a present day, a partial day, or neither (any other status, or
    none), so together they never exceed the number of rows shown. *)
Theorem day_counters_partition (w : World) :
  (presentDays w + partialDays w
   + List.length (filter (fun r => negb (status_is r "present") && negb (status_is r "partial"))
                    (attendanceHistory w))
   = List.length (attendanceHistory w))%nat /\
  (presentDays w + partialDays w <= List.length (attendanceHistory w))%nat /\
  (forall r, In r (attendanceHistory w) -> status r = None ->
     (presentDays w + partialDays w < List.length (attendanceHistory w))%nat).
Proof.
  unfold presentDays, partialDays.
  assert (Hsum : forall l : list AttendanceRecord,
             (List.length (filter (fun r => status_is r "present") l)
              + List.length (filter (fun r => status_is r "partial") l)
              + List.length (filter (fun r => negb (status_is r "present")
                                              && negb (status_is r "partial")) l)
              = List.length l)%nat).
  { induction l as [|x l IH]; [reflexivity|]. cbn [filter].
    destruct (status_is x "present") eqn:Hp, (status_is x "partial") eqn:Hq;
      cbn [negb andb List.length]; try lia.
    apply status_is_true in Hp. apply status_is_true in Hq. congruence. }
  split; [apply Hsum|]. split; [specialize (Hsum (attendanceHistory w)); lia|].
  intros r Hin Hnone.
  assert (Hother : In r (filter (fun r => negb (status_is r "present")
                                          && negb (status_is r "partial"))
                           (attendanceHistory w))).
  { apply filter_In. split; [exact Hin|]. unfold status_is. rewrite Hnone. reflexivity. }
  specialize (Hsum (attendanceHistory w)).
  destruct (filter (fun r => negb (status_is r "present") && negb (status_is r "partial"))
              (attendanceHistory w)); [contradiction|]. cbn [List.length] in Hsum. lia.
Qed.

(* ================================================================== *)
(** ** More on the thresholds and the total *)

(** At or above a positive number, and below something else: that is at
    or above it too. *)
Lemma SFleb_above (m : positive) (e : Z) (x y : spec_float) :
  SFleb (S754_finite false m e) x = true ->
  SFleb x y = true ->
  SFleb (S754_finite false m e) y = true.
Proof.
  unfold SFleb.
  destruct x as [sx|sx| |sx mx ex]; cbn [SFcompare]; try discriminate.
  - destruct sx; [discriminate|]. intros _.
    destruct y as [sy|sy| |sy my ey]; cbn [SFcompare]; try discriminate.
    destruct sy; [discriminate | reflexivity].
  - destruct sx; [discriminate|].
    destruct y as [sy|sy| |sy my ey]; cbn [SFcompare]; try discriminate.
    + destruct sy; [discriminate | reflexivity].
    + destruct sy; [discriminate|].
      change (PosDef.Pos.compare_cont Eq m mx) with (Pos.compare m mx).
      change (PosDef.Pos.compare_cont Eq mx my) with (Pos.compare mx my).
      change (PosDef.Pos.compare_cont Eq m my) with (Pos.compare m my).
      destruct (Z.compare_spec e ex), (Z.compare_spec ex ey), (Z.compare_spec e ey);
        try lia; try discriminate; try reflexivity;
        destruct (Pos.compare_spec m mx), (Pos.compare_spec mx my), (Pos.compare_spec m my);
        try lia; try discriminate; try reflexivity.
Qed.

Lemma leb_above (c x y : float) (m : positive) (e : Z) :
  Prim2SF c = S754_finite false m e ->
  PrimFloat.leb c x = true -> PrimFloat.leb x y = true -> PrimFloat.leb c y = true.
Proof.
  intros Hc. rewrite !leb_spec, Hc. apply SFleb_above.
Qed.

(** X11: more hours never give a lower status: if one punch-out has
    worked at least as long as another, its status is at least as good,
    in the order absent, partial, present. *)
Theorem more_hours_no_lower_status (h1 h2 : float) :
  PrimFloat.leb h1 h2 = true ->
  (rank (statusFor h1) <= rank (statusFor h2))%nat.
Proof.
  intros Hle. unfold statusFor.
  destruct (PrimFloat.leb 8 h1) eqn:H8.
  - rewrite (leb_above 8 h1 h2 _ _ eq_refl H8 Hle). apply Nat.le_refl.
  - destruct (PrimFloat.leb 4 h1) eqn:H4.
    + rewrite (leb_above 4 h1 h2 _ _ eq_refl H4 Hle).
      destruct (PrimFloat.leb 8 h2); cbv; lia.
    + destruct (PrimFloat.leb 8 h2); [cbv; lia|].
      destruct (PrimFloat.leb 4 h2); cbv; lia.
Qed.

Lemma more_hours_no_lower_status_witness :
  PrimFloat.leb (hoursWorked (Day.nine + Day.hm 5 30) Day.open_record)
                (hoursWorked (Day.nine + Day.hm 9 0) Day.open_record) = true /\
  (rank (upd_status (punchOutPatch (Day.nine + Day.hm 5 30)%Z Day.open_record))
   <= rank (upd_status (punchOutPatch (Day.nine + Day.hm 9 0)%Z Day.open_record)))%nat.
Proof.
  split; [vm_compute; reflexivity|].
  apply (more_hours_no_lower_status
           (hoursWorked (Day.nine + Day.hm 5 30) Day.open_record)
           (hoursWorked (Day.nine + Day.hm 9 0) Day.open_record)).
  vm_compute. reflexivity.
Defined.

(** X12: when the hours worked round to 0.00 the record is closed with
    totalHours 0, and since the cells test the total for truthiness they
    show their placeholder ('--:--' on today's card, '--' in the history
    row) and not '0h'. *)
Theorem zero_total_shows_placeholder (now : Instant) (r : AttendanceRecord) (s : bool) :
  JS.toFixed 2 (hoursWorked now r) = JS.FDec s 0 2 ->
  let closed := Store.apply_patch (punchOutPatch now r) r in
  punch_out_time closed = Some now /\
  total_hours closed = Some 0%float /\
  row_total (historyRow closed) = Placeholder "--" /\
  (forall w, todayRecord w = Some closed -> todayTotalCell w = Placeholder "--:--").
Proof.
  intros Hfix closed.
  assert (Ht : total_hours closed = Some 0%float).
  { unfold closed, punchOutPatch.
    cbn [Store.apply_patch total_hours upd_total_hours]. rewrite Hfix.
    destruct s; vm_compute; reflexivity. }
  split; [reflexivity|]. split; [exact Ht|]. split.
  - unfold historyRow. cbn [row_total]. rewrite Ht. vm_compute. reflexivity.
  - intros w Hw. unfold todayTotalCell. rewrite Hw, Ht. vm_compute. reflexivity.
Qed.

Lemma zero_total_shows_placeholder_witness :
  JS.toFixed 2 (hoursWorked (Day.nine + 10000) Day.open_record) = JS.FDec false 0 2 /\
  row_total (historyRow (Store.apply_patch (punchOutPatch (Day.nine + 10000) Day.open_record)
                           Day.open_record))
    = Placeholder "--".
Proof.
  split; [vm_compute; reflexivity|].
  apply (zero_total_shows_placeholder (Day.nine + 10000) Day.open_record false).
  vm_compute. reflexivity.
Defined.

(* ================================================================== *)
(** ** The landing page *)

Lemma truthy_str_false (s : string) : JS.truthy_str s = false <-> s = "".
Proof.
  unfold JS.truthy_str. rewrite negb_false_iff. apply String.eqb_eq.
Qed.

Lemma truthy_str_true (s : string) : s <> "" -> JS.truthy_str s = true.
Proof.
  intros H. destruct (JS.truthy_str s) eqn:E; [reflexivity|].
  apply truthy_str_false in E. contradiction.
Qed.

(** X13: submitting the sign-in form with the email or the password
    empty calls [signIn] not at all: one 'Please enter email and
    password' error is shown, and neither the submitting flag nor the
    route changes. *)
Theorem login_needs_credentials
    (signIn : string -> string -> Landing.SignIn) (p : Landing.Page) :
  Landing.email p = "" \/ Landing.password p = "" ->
  fst (Landing.handleLogin signIn p) = Landing.Normally /\
  Landing.signInCalls (snd (Landing.handleLogin signIn p)) = Landing.signInCalls p /\
  Landing.shown (snd (Landing.handleLogin signIn p))
    = Landing.shown p ++ [Landing.ToastError "Please enter email and password"] /\
  Landing.submitting (snd (Landing.handleLogin signIn p)) = Landing.submitting p /\
  Landing.navigated (snd (Landing.handleLogin signIn p)) = Landing.navigated p.
Proof.
  intros H. unfold Landing.handleLogin.
  assert (Hg : negb (JS.truthy_str (Landing.email p))
               || negb (JS.truthy_str (Landing.password p)) = true).
  { destruct H as [H | H]; apply truthy_str_false in H; rewrite H; simpl;
      [reflexivity | apply orb_true_r]. }
  rewrite Hg. repeat split.
Qed.

Lemma login_needs_credentials_witness :
  Landing.password (Landing.mkPage "ada@example.com" "" false false [] [] [] []) = "" /\
  Landing.signInCalls
    (snd (Landing.handleLogin Landing.accepts
            (Landing.mkPage "ada@example.com" "" false false [] [] [] []))) = [].
Proof.
  split; [reflexivity|].
  apply (login_needs_credentials Landing.accepts
           (Landing.mkPage "ada@example.com" "" false false [] [] [] [])).
  right. reflexivity.
Defined.

(** X14: with both fields filled, the form calls [signIn] exactly once
    with the email and password entered. When the call resolves, the
    handler ends with submitting false and exactly one toast; it
    navigates to '/app' if and only if no error came back, showing
    'Welcome back!'; with an error it stays on the page and shows the
    error's message, or 'Login failed' when the message is empty. *)
Theorem login_outcome
    (signIn : string -> string -> Landing.SignIn) (p : Landing.Page)
    (answer : option Landing.AuthError) :
  Landing.email p <> "" ->
  Landing.password p <> "" ->
  signIn (Landing.email p) (Landing.password p) = Landing.Resolves answer ->
  let p' := snd (Landing.handleLogin signIn p) in
  fst (Landing.handleLogin signIn p) = Landing.Normally /\
  Landing.signInCalls p' = Landing.signInCalls p ++ [(Landing.email p, Landing.password p)] /\
  Landing.submitting p' = false /\
  (Landing.navigated p' = Landing.navigated p ++ ["/app"] <-> answer = None) /\
  (answer = None ->
   Landing.shown p' = Landing.shown p ++ [Landing.ToastSuccess "Welcome back!"]) /\
  (forall e, answer = Some e ->
   Landing.navigated p' = Landing.navigated p /\
   Landing.shown p' =
     Landing.shown p ++ [Landing.ToastError (if String.eqb (Landing.auth_message e) ""
                                              then "Login failed"
                                              else Landing.auth_message e)]).
Proof.
  intros He Hp Hans p'. unfold p', Landing.handleLogin.
  rewrite (truthy_str_true _ He), (truthy_str_true _ Hp). cbn [negb orb]. cbv zeta.
  rewrite Hans. destruct answer as [e|]; cbn [fst snd Landing.signInCalls Landing.submitting
                                              Landing.navigated Landing.shown].
  - split; [reflexivity|]. split; [reflexivity|]. split; [reflexivity|].
    split; [|split].
    + split; [|discriminate].
      intros H. exfalso. apply (f_equal (@List.length string)) in H.
      rewrite length_app in H. simpl in H. lia.
    + discriminate.
    + intros e0 H. injection H as <-. split; [reflexivity|].
      unfold JS.or_str, JS.truthy_str.
      destruct (String.eqb (Landing.auth_message e) ""); reflexivity.
  - split; [reflexivity|]. split; [reflexivity|]. split; [reflexivity|].
    split; [|split].
    + split; reflexivity.
    + reflexivity.
    + discriminate.
Qed.

Lemma login_outcome_witness :
  Landing.email Landing.visitor <> "" /\
  Landing.navigated (snd (Landing.handleLogin Landing.accepts Landing.visitor)) = ["/app"] /\
  Landing.navigated (snd (Landing.handleLogin Landing.refuses Landing.visitor)) = [] /\
  Landing.shown (snd (Landing.handleLogin Landing.refuses Landing.visitor))
    = [Landing.ToastError "Invalid login credentials"].
Proof.
  assert (He : Landing.email Landing.visitor <> "") by discriminate.
  assert (Hp : Landing.password Landing.visitor <> "") by discriminate.
  split; [exact He|]. split.
  - apply (proj1 (proj2 (proj2 (proj2 (login_outcome Landing.accepts Landing.visitor None
                                         He Hp eq_refl))))).
    reflexivity.
  - apply (proj2 (proj2 (proj2 (proj2 (proj2
             (login_outcome Landing.refuses Landing.visitor
                (Some (Landing.mkAuthError "Invalid login credentials")) He Hp eq_refl))))))
      with (e := Landing.mkAuthError "Invalid login credentials").
    reflexivity.
Defined.

(** X15: [handleLogin] has no try/finally around the call: if [signIn]
    rejects, the exception leaves the handler with submitting still
    true, no toast and no navigation - and since the Sign In button is
    disabled while submitting, the form cannot be submitted again. *)
Theorem login_rejection_sticks
    (signIn : string -> string -> Landing.SignIn) (p : Landing.Page) (e : Landing.AuthError) :
  Landing.email p <> "" ->
  Landing.password p <> "" ->
  signIn (Landing.email p) (Landing.password p) = Landing.Rejects e ->
  let p' := snd (Landing.handleLogin signIn p) in
  fst (Landing.handleLogin signIn p) = Landing.Throwing e /\
  Landing.submitting p' = true /\
  Landing.shown p' = Landing.shown p /\
  Landing.navigated p' = Landing.navigated p /\
  (forall again, Landing.submit again p' = (Landing.Normally, p')).
Proof.
  intros He Hp Hans p'. unfold p', Landing.handleLogin.
  rewrite (truthy_str_true _ He), (truthy_str_true _ Hp). cbn [negb orb]. cbv zeta.
  rewrite Hans. repeat split.
Qed.

Lemma login_rejection_sticks_witness :
  Landing.email Landing.visitor <> "" /\
  Landing.submitting (snd (Landing.handleLogin Landing.breaks Landing.visitor)) = true /\
  Landing.submit Landing.accepts (snd (Landing.handleLogin Landing.breaks Landing.visitor))
    = (Landing.Normally, snd (Landing.handleLogin Landing.breaks Landing.visitor)).
Proof.
  assert (He : Landing.email Landing.visitor <> "") by discriminate.
  assert (Hp : Landing.password Landing.visitor <> "") by discriminate.
  split; [exact He|].
  destruct (login_rejection_sticks Landing.breaks Landing.visitor
              (Landing.mkAuthError "Failed to fetch") He Hp eq_refl)
    as (_ & Hs & _ & _ & Hstuck).
  split; [exact Hs | apply Hstuck].
Defined.

Lemma set_add_In (x y : string) (s : list string) :
  In y (Landing.set_add x s) <-> In y s \/ y = x.
Proof.
  unfold Landing.set_add. destruct (existsb (String.eqb x) s) eqn:E.
  - split; [auto|]. intros [H | ->]; [exact H|].
    apply existsb_exists in E. destruct E as (z & Hz & Hxz).
    apply String.eqb_eq in Hxz. subst z. exact Hz.
  - rewrite in_app_iff. simpl. intuition.
Qed.

Lemma set_add_NoDup (x : string) (s : list string) :
  NoDup s -> NoDup (Landing.set_add x s).
Proof.
  intros Hs. unfold Landing.set_add. destruct (existsb (String.eqb x) s) eqn:E; [exact Hs|].
  apply NoDup_app; [exact Hs | repeat constructor; auto|].
  intros y Hy [Hxy | []]. subst y.
  assert (Hex : existsb (String.eqb x) s = true).
  { apply existsb_exists. exists x. split; [exact Hy | apply String.eqb_refl]. }
  congruence.
Qed.

(** X16: the section observer only ever adds: after a callback the
    visible sections are those visible before plus the ids of the
    entries that intersect, an entry that does not intersect adds
    nothing and removes nothing, and no id is listed twice. *)
Theorem sections_only_grow (entries : list Landing.Entry) (p : Landing.Page) :
  let p' := Landing.onIntersect entries p in
  (forall x, In x (Landing.visibleSections p') <->
     In x (Landing.visibleSections p) \/
     exists e, In e entries /\ Landing.isIntersecting e = true /\ Landing.target_id e = x) /\
  (NoDup (Landing.visibleSections p) -> NoDup (Landing.visibleSections p')) /\
  (forallb (fun e => negb (Landing.isIntersecting e)) entries = true ->
   Landing.visibleSections p' = Landing.visibleSections p).
Proof.
  cbv zeta. unfold Landing.onIntersect. cbn [Landing.visibleSections].
  generalize (Landing.visibleSections p) as s.
  induction entries as [|e entries IH]; intros s; cbn [fold_left].
  - split; [|split; auto]. intros x. split; [auto|].
    intros [H | (e & [] & _)]. exact H.
  - destruct (IH (if Landing.isIntersecting e then Landing.set_add (Landing.target_id e) s
                  else s)) as (Hin & Hnd & Hnone).
    split; [|split].
    + intros x. rewrite Hin. destruct (Landing.isIntersecting e) eqn:Ei.
      * rewrite set_add_In. split.
        -- intros [[H | ->] | (e' & He' & Hi & Hx)]; [auto | | ].
           ++ right. exists e. split; [left; reflexivity | auto].
           ++ right. exists e'. split; [right; exact He' | auto].
        -- intros [H | (e' & [<- | He'] & Hi & Hx)]; [auto | auto | ].
           right. exists e'. auto.
      * split.
        -- intros [H | (e' & He' & Hi & Hx)]; [auto|].
           right. exists e'. split; [right; exact He' | auto].
        -- intros [H | (e' & [<- | He'] & Hi & Hx)]; [auto | congruence | ].
           right. exists e'. auto.
    + intros Hs. apply Hnd. destruct (Landing.isIntersecting e); [|exact Hs].
      apply set_add_NoDup, Hs.
    + cbn [forallb]. intros H. apply andb_true_iff in H. destruct H as [He Hrest].
      apply negb_true_iff in He. rewrite He in Hnone |- *. cbv iota in Hnone |- *.
      exact (Hnone Hrest).
Qed.

(* ================================================================== *)
(** ** Today's record after a load *)

(** X17: once the first query of a load succeeds, todayRecord is a row
    of the table that belongs to the signed-in employee and is dated
    today, or it is empty exactly when the table has no such row. This
    holds even when a later query of the same load fails. *)
Theorem today_record_after_load (env : Env) (w : World) (emp : string) :
  signedIn env = Some emp ->
  error (Store.select_today (todayFault env) emp (today env) (store w)) = None ->
  let w' := exec (loadState env) w in
  (forall r, todayRecord w' = Some r ->
     In r (store w) /\ employee_id r = emp /\ attendance_date r = today env) /\
  (todayRecord w' = None <->
     forall r, In r (store w) -> employee_id r = emp -> attendance_date r <> today env).
Proof.
  intros Hemp H1 w'.
  assert (Hw : todayRecord w'
               = data (Store.select_today (todayFault env) emp (today env) (store w))).
  { unfold w', exec, loadState. rewrite Hemp, fetchAttendance_run. cbn [snd]. cbv zeta.
    rewrite H1.
    destruct (error (Store.select_history _ _ _ _)); [reflexivity|].
    destruct (error (Store.select_month _ _ _ _ _)); reflexivity. }
  rewrite Hw. revert H1. unfold Store.select_today.
  destruct (todayFault env) as [e|]; [discriminate|].
  assert (Hday : forall r, In r (filter (Store.for_day emp (today env)) (store w)) <->
                   In r (store w) /\ employee_id r = emp /\ attendance_date r = today env).
  { intros r. rewrite filter_In. unfold Store.for_day.
    rewrite andb_true_iff, !String.eqb_eq. tauto. }
  destruct (filter (Store.for_day emp (today env)) (store w)) as [|x [|y l]];
    cbn [data error]; intros Hok; [| |discriminate Hok].
  - split; [intros r Hr; discriminate Hr|]. split; [|reflexivity].
    intros _ r Hin He Hd. apply (proj2 (Hday r)). auto.
  - split.
    + intros r Hr. injection Hr as <-. apply Hday. left. reflexivity.
    + split; [intros Hr; discriminate Hr|]. intros H. exfalso.
      destruct (proj1 (Hday x) (or_introl eq_refl)) as (Hin & He & Hd).
      exact (H x Hin He Hd).
Qed.

Lemma today_record_after_load_witness :
  signedIn (Day.history_down Day.nine) = Some "emp1" /\
  todayRecord (exec (loadState (Day.history_down Day.nine)) Day.just_punched_in)
    = Some Day.open_record /\
  In Day.open_record (store Day.just_punched_in).
Proof.
  split; [reflexivity|]. split; [vm_compute; reflexivity|].
  exact (proj1 (proj1 (today_record_after_load (Day.history_down Day.nine)
                         Day.just_punched_in "emp1" eq_refl eq_refl)
                  Day.open_record eq_refl)).
Defined.
